(** * GTFS Realtime Ireland sensor: a shallow embedding of [sensor.py]

    The development follows the source file top-down:

    - [Py]: the pieces of the Python runtime the sensor relies on
      (exceptions, [int(a / b)], slices, the stable [sorted]);
    - [Clock]: [datetime], [time.strptime], [time.mktime], [strftime];
    - [Db]: the SQLite tables written by pygtfs and the queries issued;
    - [Feed]: the decoded GTFS-realtime message;
    - [Sensor]: [get_times] with its nested [validate_service], and the
      methods of [PublicTransportData].

    Effects (wall-clock readings, HTTP requests, log records, protobuf
    decoding, exceptions) are threaded through one small monad. *)

From Stdlib Require Import ZArith Lia Ascii String.
From stdpp Require Import base list strings gmap sorting pretty.

Local Open Scope Z_scope.

(** ** Python runtime *)

Module Py.

(** Exceptions that the sensor can raise or let through. *)
Inductive exn : Set :=
  | TypeError      (* subscripting or iterating [None] *)
  | ValueError     (* [time.strptime]: the text does not match the format *)
  | IndexError
  | DecodeError    (* protobuf [ParseFromString] *)
  | RequestException.

Inductive outcome (A : Type) : Type :=
  | Returned (a : A)
  | Raised (e : exn).
Arguments Returned {A} a.
Arguments Raised {A} e.

(** [int(a / b)] for integers [a], [b]: true division yields a float and
    [int] truncates toward zero.  For the magnitudes met here (second
    counts far below 2^53, divisor 60) the float quotient never crosses
    an integer, so the result is the truncated integer quotient. *)
Definition int_truediv (a b : Z) : Z := Z.quot a b.

(** [l[0:stop]]: a negative [stop] counts from the end of the list. *)
Definition slice_to {A : Type} (l : list A) (stop : Z) : list A :=
  if stop <? 0
  then take (Z.to_nat (Z.max 0 (Z.of_nat (length l) + stop))) l
  else take (Z.to_nat stop) l.

(** [sorted(l, key=key)] is stable: an element goes after every element
    already placed whose key is not larger. *)
Fixpoint insort {A : Type} (key : A -> Z) (x : A) (l : list A) : list A :=
  match l with
  | [] => [x]
  | y :: l' => if key x <? key y then x :: l else y :: insort key x l'
  end.

Definition sorted {A : Type} (key : A -> Z) (l : list A) : list A :=
  foldl (fun acc x => insort key x acc) [] l.

End Py.

(** ** Dates and times *)

Module Clock.
Import Py.

(** [datetime.datetime] (naive, local time). *)
Record datetime : Set := {
    year : Z; month : Z; day : Z;
    hour : Z; minute : Z; second : Z; microsecond : Z
  }.

(** [time.struct_time], the fields [time.mktime] reads. *)
Record struct_time : Set := {
    tm_year : Z; tm_mon : Z; tm_mday : Z;
    tm_hour : Z; tm_min : Z; tm_sec : Z
  }.

(** Days between 1970-01-01 and the civil date [y]-[m]-[d] of the
    proleptic Gregorian calendar. *)
Definition days_from_civil (y m d : Z) : Z :=
  let y' := if m <=? 2 then y - 1 else y in
  let era := y' / 400 in
  let yoe := y' - era * 400 in
  let mp := if m <=? 2 then m + 9 else m - 3 in
  let doy := (153 * mp + 2) / 5 + d - 1 in
  let doe := yoe * 365 + yoe / 4 - yoe / 100 + doy in
  era * 146097 + doe - 719468.

Definition is_leap (y : Z) : bool :=
  (y mod 4 =? 0) && (negb (y mod 100 =? 0) || (y mod 400 =? 0)).

Definition days_in_month (y m : Z) : Z :=
  if m =? 2 then (if is_leap y then 29 else 28)
  else if (m =? 4) || (m =? 6) || (m =? 9) || (m =? 11) then 30
  else 31.

(** [datetime.weekday()]: Monday is 0 (1970-01-01 was a Thursday). *)
Definition weekday (t : datetime) : Z :=
  (days_from_civil (year t) (month t) (day t) + 3) mod 7.

(** [time.mktime]: seconds since the epoch of a local time, for a zone
    that stays [utcoffset] seconds east of UTC. *)
Definition mktime (utcoffset : Z) (tm : struct_time) : Z :=
  days_from_civil (tm_year tm) (tm_mon tm) (tm_mday tm) * 86400
  + tm_hour tm * 3600 + tm_min tm * 60 + tm_sec tm - utcoffset.

(** *** Formatting *)

Definition digit_char (d : Z) : ascii :=
  ascii_of_nat (48 + Z.to_nat (d mod 10)).

(** The [width] least significant decimal digits of [z]. *)
Fixpoint zero_padded (width : nat) (z : Z) : string :=
  match width with
  | O => EmptyString
  | S w => zero_padded w (z / 10) +:+ String (digit_char z) EmptyString
  end.

(** [datetime.strftime] for the directives the sensor uses. *)
Fixpoint strftime (t : datetime) (fmt : string) : string :=
  match fmt with
  | EmptyString => EmptyString
  | String "%" (String c fmt') =>
      (if Ascii.eqb c "Y" then zero_padded 4 (year t)
       else if Ascii.eqb c "m" then zero_padded 2 (month t)
       else if Ascii.eqb c "d" then zero_padded 2 (day t)
       else if Ascii.eqb c "H" then zero_padded 2 (hour t)
       else if Ascii.eqb c "M" then zero_padded 2 (minute t)
       else if Ascii.eqb c "S" then zero_padded 2 (second t)
       else if Ascii.eqb c "f" then zero_padded 6 (microsecond t)
       else String "%" (String c EmptyString))
      +:+ strftime t fmt'
  | String c fmt' => String c (strftime t fmt')
  end.

(** [str(datetime)]: ISO format with a space separator; the fraction is
    printed only when the microsecond field is not zero. *)
Definition str_datetime (t : datetime) : string :=
  if microsecond t =? 0
  then strftime t "%Y-%m-%d %H:%M:%S"
  else strftime t "%Y-%m-%d %H:%M:%S.%f".

(** *** Parsing *)

Definition digit_value (c : ascii) : option Z :=
  let n := Z.of_nat (nat_of_ascii c) in
  if (48 <=? n) && (n <=? 57) then Some (n - 48) else None.

(** The longest run of at most [width] digits at the head of [s]:
    how many digits, their value, and the rest of the text. *)
Fixpoint take_digits (width : nat) (acc : Z) (s : string)
  : nat * Z * string :=
  match width, s with
  | S w, String c s' =>
      match digit_value c with
      | Some d =>
          let '(n, v, rest) := take_digits w (acc * 10 + d) s' in
          (S n, v, rest)
      | None => (O, acc, s)
      end
  | _, _ => (O, acc, s)
  end.

Definition tm_default : struct_time :=
  {| tm_year := 1900; tm_mon := 1; tm_mday := 1;
     tm_hour := 0; tm_min := 0; tm_sec := 0 |}.

(** One directive of the format: the field width accepted
    ([%Y] four digits, [%f] one to six, the others one or two), the
    range accepted, and the field of the result it sets. *)
Definition directive (c : ascii) (s : string) (tm : struct_time)
  : option (struct_time * string) :=
  let field (lo hi : nat) (vmin vmax : Z)
            (set : Z -> struct_time) :=
    let '(n, v, rest) := take_digits hi 0 s in
    if (lo <=? n)%nat && (vmin <=? v) && (v <=? vmax)
    then Some (set v, rest) else None in
  if Ascii.eqb c "Y" then
    field 4%nat 4%nat 0 9999 (fun v =>
      {| tm_year := v; tm_mon := tm_mon tm; tm_mday := tm_mday tm;
         tm_hour := tm_hour tm; tm_min := tm_min tm; tm_sec := tm_sec tm |})
  else if Ascii.eqb c "m" then
    field 1%nat 2%nat 1 12 (fun v =>
      {| tm_year := tm_year tm; tm_mon := v; tm_mday := tm_mday tm;
         tm_hour := tm_hour tm; tm_min := tm_min tm; tm_sec := tm_sec tm |})
  else if Ascii.eqb c "d" then
    field 1%nat 2%nat 1 31 (fun v =>
      {| tm_year := tm_year tm; tm_mon := tm_mon tm; tm_mday := v;
         tm_hour := tm_hour tm; tm_min := tm_min tm; tm_sec := tm_sec tm |})
  else if Ascii.eqb c "H" then
    field 1%nat 2%nat 0 23 (fun v =>
      {| tm_year := tm_year tm; tm_mon := tm_mon tm; tm_mday := tm_mday tm;
         tm_hour := v; tm_min := tm_min tm; tm_sec := tm_sec tm |})
  else if Ascii.eqb c "M" then
    field 1%nat 2%nat 0 59 (fun v =>
      {| tm_year := tm_year tm; tm_mon := tm_mon tm; tm_mday := tm_mday tm;
         tm_hour := tm_hour tm; tm_min := v; tm_sec := tm_sec tm |})
  else if Ascii.eqb c "S" then
    field 1%nat 2%nat 0 61 (fun v =>
      {| tm_year := tm_year tm; tm_mon := tm_mon tm; tm_mday := tm_mday tm;
         tm_hour := tm_hour tm; tm_min := tm_min tm; tm_sec := v |})
  else if Ascii.eqb c "f" then
    (* the fraction is parsed and dropped: struct_time has no field for it *)
    field 1%nat 6%nat 0 999999 (fun _ => tm)
  else None.

Fixpoint strptime_fields (fmt s : string) (tm : struct_time)
  : option struct_time :=
  match fmt with
  | EmptyString =>
      match s with EmptyString => Some tm | _ => None end
  | String "%" (String c fmt') =>
      match directive c s tm with
      | Some (tm', rest) => strptime_fields fmt' rest tm'
      | None => None
      end
  | String c fmt' =>
      match s with
      | String c' s' =>
          if Ascii.eqb c c' then strptime_fields fmt' s' tm else None
      | EmptyString => None
      end
  end.

(** [time.strptime(s, fmt)] on texts whose fields are runs of digits
    between the literal characters of the format, the shape written by
    pygtfs and by [strftime].  A text that does not match, leaves data
    unconverted or names a day the month does not have raises
    [ValueError]. *)
Definition strptime (s fmt : string) : outcome struct_time :=
  match strptime_fields fmt s tm_default with
  | Some tm =>
      if tm_mday tm <=? days_in_month (tm_year tm) (tm_mon tm)
      then Returned tm else Raised ValueError
  | None => Raised ValueError
  end.

End Clock.

Module ClockExamples.
Import Py Clock.

Definition noon : datetime :=
  {| year := 2024; month := 6; day := 30;
     hour := 12; minute := 0; second := 0; microsecond := 500000 |}.

Example str_noon : str_datetime noon = "2024-06-30 12:00:00.500000"%string.
Proof. reflexivity. Qed.

Example mktime_noon :
  match strptime (str_datetime noon) "%Y-%m-%d %H:%M:%S.%f" with
  | Returned tm => mktime 0 tm
  | Raised _ => -1
  end = 1719748800.
Proof. vm_compute. reflexivity. Qed.

Example weekday_noon : weekday noon = 6.
Proof. reflexivity. Qed.

Example strptime_short :
  strptime "2024-02-30" "%Y-%m-%d" = Raised ValueError.
Proof. vm_compute. reflexivity. Qed.
End ClockExamples.

(** ** The static schedule database *)

Module Db.

(** A value read from a row fetched with [SELECT *]. *)
Inductive sqlval : Set :=
  | SqlInt (z : Z)
  | SqlText (s : string).

Record stops_row : Set := {
  s_stop_id : string; s_stop_name : string }.

Record routes_row : Set := {
  r_agency_id : string; r_route_id : string; r_route_short_name : string }.

Record trips_row : Set := {
  t_route_id : string; t_trip_id : string; t_service_id : string }.

Record stop_times_row : Set := {
  st_trip_id : string; st_stop_id : string;
  st_arrival_time : string; st_departure_time : string }.

(** Table [calendar] as pygtfs creates it: the feed, the service, the
    seven weekday flags from Monday on, and the date range as
    [YYYY-MM-DD] texts. *)
Record calendar_row : Set := {
  c_feed_id : Z; c_service_id : string;
  c_monday : Z; c_tuesday : Z; c_wednesday : Z; c_thursday : Z;
  c_friday : Z; c_saturday : Z; c_sunday : Z;
  c_start_date : string; c_end_date : string }.

Record calendar_dates_row : Set := {
  cd_service_id : string; cd_date : string }.

Record Database : Set := {
  stops : list stops_row;
  routes : list routes_row;
  trips : list trips_row;
  stop_times : list stop_times_row;
  calendar : list calendar_row;
  calendar_dates : list calendar_dates_row }.

(** The columns of a [calendar] row in table order. *)
Definition calendar_columns (r : calendar_row) : list sqlval :=
  [ SqlInt (c_feed_id r); SqlText (c_service_id r);
    SqlInt (c_monday r); SqlInt (c_tuesday r); SqlInt (c_wednesday r);
    SqlInt (c_thursday r); SqlInt (c_friday r); SqlInt (c_saturday r);
    SqlInt (c_sunday r);
    SqlText (c_start_date r); SqlText (c_end_date r) ].

(** [fetchone()] is the first row of the result, [None] when there is
    none; rows come in table order. *)

(** SELECT stop_id, stop_name from stops WHERE stop_name=:stop *)
Definition select_stop (db : Database) (stop : string)
  : option (string * string) :=
  (fun r => (s_stop_id r, s_stop_name r)) <$>
    List.find (fun r => String.eqb (s_stop_name r) stop) (stops db).

(** SELECT agency_id, route_id from routes
    WHERE route_short_name=:route AND agency_id=:operator *)
Definition select_route (db : Database) (route operator : string)
  : option (string * string) :=
  (fun r => (r_agency_id r, r_route_id r)) <$>
    List.find (fun r => String.eqb (r_route_short_name r) route
                        && String.eqb (r_agency_id r) operator)
              (routes db).

(** SELECT trip_id, service_id from trips WHERE route_id=:route *)
Definition select_trips (db : Database) (route : string)
  : list (string * string) :=
  (fun r => (t_trip_id r, t_service_id r)) <$>
    List.filter (fun r => String.eqb (t_route_id r) route) (trips db).

(** SELECT arrival_time, departure_time, stop_id FROM stop_times
    WHERE trip_id=:trip AND stop_id=:stop *)
Definition select_stop_time (db : Database) (trip stop : string)
  : option (string * string * string) :=
  (fun r => (st_arrival_time r, st_departure_time r, st_stop_id r)) <$>
    List.find (fun r => String.eqb (st_trip_id r) trip
                        && String.eqb (st_stop_id r) stop)
              (stop_times db).

(** SELECT * from calendar WHERE service_id=:service *)
Definition select_calendar (db : Database) (service : string)
  : option (list sqlval) :=
  calendar_columns <$>
    List.find (fun r => String.eqb (c_service_id r) service) (calendar db).

(** SELECT * from calendar_dates WHERE service_id=:service and date=:date *)
Definition select_calendar_date (db : Database) (service date : string)
  : option calendar_dates_row :=
  List.find (fun r => String.eqb (cd_service_id r) service
                      && String.eqb (cd_date r) date)
            (calendar_dates db).

End Db.

(** ** The decoded real-time feed *)

Module Feed.

(** [StopTimeEvent.delay] is a signed number of seconds. *)
Record StopTimeEvent : Set := { delay : Z }.

(** [stop.HasField("arrival")] is [arrival stop <> None]. *)
Record StopTimeUpdate : Set := { arrival : option StopTimeEvent }.

Record TripUpdate : Set := {
    tu_trip_id : string;                          (* trip_update.trip.trip_id *)
    stop_time_update : list StopTimeUpdate;
    tu_vehicle_id : string                        (* trip_update.vehicle.id *)
  }.

(** Coordinates are carried, never computed with: each is kept as the
    bit pattern of the single-precision field of the message. *)
Record Position : Set := { latitude : Z; longitude : Z }.

Record VehiclePosition : Set := {
    vp_route_id : string;                         (* vehicle.trip.route_id *)
    vp_vehicle_id : string;                       (* vehicle.vehicle.id *)
    vp_position : Position                        (* vehicle.position *)
  }.

(** [entity.HasField("trip_update")] is [trip_update entity <> None]. *)
Record FeedEntity : Set := {
    trip_update : option TripUpdate;
    vehicle : option VehiclePosition
  }.

Record FeedMessage : Set := { entity : list FeedEntity }.

(** Reading a message field that is not set yields its default value. *)
Definition default_vehicle : VehiclePosition :=
  {| vp_route_id := ""; vp_vehicle_id := "";
     vp_position := {| latitude := 0; longitude := 0 |} |}.

Definition entity_vehicle (e : FeedEntity) : VehiclePosition :=
  default default_vehicle (vehicle e).

End Feed.

(** ** The outside world and the effects of a run *)

Module Run.
Import Py Clock Db Feed.

Record Response : Set := {
  status_code : Z;
  content : list Byte.byte }.

(** What a run does that can be observed from outside. *)
Inductive event : Set :=
  | HttpGet (url : string) (api_key : option string) (timeout : Z)
  | LogError (msg : string)
  | Decode (body : list Byte.byte).

(** What a run reads: the schedule database, the wall clock as the
    sequence of its successive readings, the time zone, the transport
    and the protobuf decoder. *)
Record World : Type := {
  gtfs_db : Database;
  clock : nat -> datetime;
  utcoffset : Z;
  requests_get : string -> option string -> outcome Response;
  ParseFromString : list Byte.byte -> outcome FeedMessage }.

Record state : Set := {
  ticks : nat;              (* clock readings taken so far *)
  trace : list event }.     (* events so far, oldest first *)

Definition start : state := {| ticks := 0%nat; trace := [] |}.

Definition M (A : Type) : Type := state -> outcome A * state.

Definition ret {A} (a : A) : M A := fun s => (Returned a, s).

Definition raise {A} (e : exn) : M A := fun s => (Raised e, s).

Definition bind {A B} (m : M A) (k : A -> M B) : M B :=
  fun s =>
    match m s with
    | (Returned a, s') => k a s'
    | (Raised e, s') => (Raised e, s')
    end.

Definition lift {A} (o : outcome A) : M A := fun s => (o, s).

Definition emit (e : event) : M unit :=
  fun s => (Returned tt, {| ticks := ticks s; trace := trace s ++ [e] |}).

(** [datetime.datetime.now()] and [datetime.datetime.today()]. *)
Definition now (w : World) : M datetime :=
  fun s => (Returned (clock w (ticks s)),
            {| ticks := S (ticks s); trace := trace s |}).

End Run.

Declare Scope run_scope.
Delimit Scope run_scope with run.
Notation "'let*' x ':=' m 'in' k" := (Run.bind m (fun x => k))
  (at level 10, x name, m at level 100, k at level 200) : run_scope.
Notation "'do' m 'then' k" := (Run.bind m (fun _ => k))
  (at level 10, m at level 100, k at level 200) : run_scope.

(** ** The sensor *)

Module Sensor.
Import Py Clock Db Feed Run.
Local Open Scope run_scope.

(** An element of [stop_times]: the tuple
    [(req_stop_name, req_route, req_trip, int(diff / 60), dep_time_str)],
    its components in this order. *)
Record Departure : Set := {
  dep_stop_name : string;
  dep_route : string;
  dep_trip : string;
  dep_minutes : Z;
  dep_time_str : string }.

Definition date_format : string := "%Y-%m-%d %H:%M:%S.%f".
Definition pattern : string := "%Y-%m-%d %H:%M:%S.%f".
Definition pattern1 : string := "1970-01-01 %H:%M:%S.%f".
Definition pattern2 : string := "%Y-%m-%d".

(** [list(row)]: iterating [None] raises [TypeError]. *)
Definition py_list {A} (row : option (list A)) : M (list A) :=
  match row with
  | Some l => ret l
  | None => raise TypeError
  end.

(** [l[i]] for a list [l]. *)
Definition py_index {A} (l : list A) (i : Z) : M A :=
  let j := if i <? 0 then Z.of_nat (length l) + i else i in
  if j <? 0 then raise IndexError
  else match l !! Z.to_nat j with
       | Some x => ret x
       | None => raise IndexError
       end.

(** [int(time.mktime(time.strptime(v, fmt)))] for a column value [v]:
    [strptime] wants a text. *)
Definition epoch_of (w : World) (v : sqlval) (fmt : string) : M Z :=
  match v with
  | SqlText s =>
      let* tm := lift (strptime s fmt) in ret (mktime (utcoffset w) tm)
  | SqlInt _ => raise TypeError
  end.

Section GetTimes.
Variable w : World.

(** Is a service id valid for today with no exceptions. *)
Definition validate_service (service_id : string) : M bool :=
  let* today_dt := now w in
  let today := weekday today_dt in
  let days_of_week := select_calendar (gtfs_db w) service_id in
  let* cols := py_list days_of_week in
  let* today_flag := py_index cols (today + 2) in
  let* today_date := now w in
  let today_date1 := str_datetime today_date in
  let today_date2 := strftime today_date pattern2 in
  let* d_t := epoch_of w (SqlText today_date1) date_format in
  let* from_date := py_index cols 9 in
  let* to_date := py_index cols 10 in
  let* dt1 := epoch_of w from_date pattern2 in
  let* dt2 := epoch_of w to_date pattern2 in
  let validity := (dt1 <=? d_t) && (d_t <=? dt2) in
  if match today_flag with SqlInt 1 => true | _ => false end && validity
  then
    match select_calendar_date (gtfs_db w) service_id today_date2 with
    | Some _ => ret false
    | None => ret true
    end
  else ret false.

(** The body of [for trip_id, service_id in ctrips.fetchall()]. *)
Definition trip_step (req_stop_name req_route req_stop_id : string)
    (stop_times : list Departure) (row : string * string)
  : M (list Departure) :=
  let '(trip_id, service_id) := row in
  let req_trip := trip_id in
  match select_stop_time (gtfs_db w) req_trip req_stop_id with
  | Some departure =>
      let dep_time_str := departure.1.2 in
      let* epoch_dep := epoch_of w (SqlText dep_time_str) pattern in
      let* now_dt := now w in
      let curr_time_str := strftime now_dt pattern1 in
      let* epoch_now := epoch_of w (SqlText curr_time_str) pattern in
      if epoch_now <=? epoch_dep then
        let diff := epoch_dep - epoch_now in
        let* valid := validate_service service_id in
        if valid then
          ret (stop_times ++
               [ {| dep_stop_name := req_stop_name; dep_route := req_route;
                    dep_trip := req_trip;
                    dep_minutes := int_truediv diff 60;
                    dep_time_str := dep_time_str |} ])
        else ret stop_times
      else ret stop_times
  | None => ret stop_times
  end.

Fixpoint trips_loop (req_stop_name req_route req_stop_id : string)
    (rows : list (string * string)) (stop_times : list Departure)
  : M (list Departure) :=
  match rows with
  | [] => ret stop_times
  | row :: rows' =>
      let* stop_times' :=
        trip_step req_stop_name req_route req_stop_id stop_times row in
      trips_loop req_stop_name req_route req_stop_id rows' stop_times'
  end.

(** The body of [for r_s in route_stops].  Both [stop_data[0]] and
    [valid_operator[1]] subscript the result of [fetchone()] as it
    comes, before the test [valid_operator is not None]. *)
Definition selector_step (stop_times : list Departure)
    (r_s : string * string * string) : M (list Departure) :=
  let '(req_stop_name, req_route, req_operator) := r_s in
  let stop_data := select_stop (gtfs_db w) req_stop_name in
  let* req_stop_id :=
    match stop_data with
    | Some row => ret row.1
    | None => raise TypeError
    end in
  let valid_operator := select_route (gtfs_db w) req_route req_operator in
  let* req_route_id :=
    match valid_operator with
    | Some row => ret row.2
    | None => raise TypeError
    end in
  match valid_operator with
  | Some _ =>
      trips_loop req_stop_name req_route req_stop_id
        (select_trips (gtfs_db w) req_route_id) stop_times
  | None => ret stop_times
  end.

Fixpoint selectors_loop (route_stops : list (string * string * string))
    (stop_times : list Departure) : M (list Departure) :=
  match route_stops with
  | [] => ret stop_times
  | r_s :: rest =>
      let* stop_times' := selector_step stop_times r_s in
      selectors_loop rest stop_times'
  end.

(** Get the next departure times for today for each
    required/configured stop, route and operator. *)
Definition get_times (route_stops : list (string * string * string))
    (set_limit : Z) : M (list Departure) :=
  let* stop_times := selectors_loop route_stops [] in
  let stop_times := sorted dep_minutes stop_times in
  let stop_times := slice_to stop_times set_limit in
  ret stop_times.

End GetTimes.

(** *** [PublicTransportData] *)

(** What [_update_route_statuses] binds to [vehicle_position]: the
    integer [0] it starts from, or the result of [dict.get], which is
    [None] or a position. *)
Inductive position_value : Set :=
  | PyZero
  | PyNone
  | PyPosition (p : Position).

(** Stop times object list. Position is not implemented - future. *)
Record StopDetails : Set := {
  arrival_time : Z;
  position : position_value;
  dep_time : string }.

Record PublicTransportData : Set := {
  _trip_update_url : string;
  _route_deps : list (string * string * string);
  _vehicle_position_url : string;
  _set_limit : Z;
  _headers : option string }.      (* the value of the x-api-key header *)

(** [requests.get(url, headers=..., timeout=...)]. *)
Definition http_get (w : World) (url : string) (headers : option string)
    (timeout : Z) : M Response :=
  do emit (HttpGet url headers timeout) then
  lift (requests_get w url headers).

(** [feed.ParseFromString(body)]. *)
Definition parse_feed (w : World) (body : list Byte.byte) : M FeedMessage :=
  do emit (Decode body) then
  lift (ParseFromString w body).

(** [vehicle_positions.get(id)]. *)
Definition positions_get (vehicle_positions : gmap string Position)
    (id : string) : position_value :=
  match vehicle_positions !! id with
  | Some p => PyPosition p
  | None => PyNone
  end.

(** [for stop in entity.trip_update.stop_time_update]. *)
Definition stop_time_updates_loop (updates : list StopTimeUpdate)
    (modified_time : Z) : Z :=
  foldl (fun modified_time stop =>
           match arrival stop with
           | Some a => modified_time + int_truediv (delay a) 60
           | None => modified_time
           end)
        modified_time updates.

(** The body of [for entity in feed.entity]: the delays are added
    under the test on the trip identifier, the position is looked up
    for every entity that has a trip update. *)
Definition entity_step (vehicle_positions : gmap string Position)
    (trip_no : string) (acc : Z * position_value) (e : FeedEntity)
  : Z * position_value :=
  let '(modified_time, vehicle_position) := acc in
  match trip_update e with
  | Some tu =>
      let modified_time :=
        if String.eqb (tu_trip_id tu) trip_no
        then stop_time_updates_loop (stop_time_update tu) modified_time
        else modified_time in
      (modified_time, positions_get vehicle_positions (tu_vehicle_id tu))
  | None => acc
  end.

(** The [StopDetails] built for one element of [next_times]. *)
Definition details_of (vehicle_positions : gmap string Position)
    (feed : FeedMessage) (arrival_time : Departure) : StopDetails :=
  let trip_no := dep_trip arrival_time in
  let modified_time := dep_minutes arrival_time in
  let dep_time := dep_time_str arrival_time in
  let dep_time := String.substring 10 6 dep_time in
  let vehicle_position := PyZero in
  let '(modified_time, vehicle_position) :=
    foldl (entity_step vehicle_positions trip_no)
          (modified_time, vehicle_position) (entity feed) in
  {| arrival_time := modified_time; position := vehicle_position;
     dep_time := dep_time |}.

(** [departure_times[route_no][stop_name].append(details)], after the
    two tests that create the missing levels. *)
Definition append_details
    (departure_times : gmap string (gmap string (list StopDetails)))
    (route_no stop_name : string) (details : StopDetails)
  : gmap string (gmap string (list StopDetails)) :=
  let by_stop := default ∅ (departure_times !! route_no) in
  let arrivals :=
    match by_stop !! stop_name with
    | Some (d :: l) => d :: l
    | _ => []
    end in
  <[route_no := <[stop_name := arrivals ++ [details]]> by_stop]>
    departure_times.

(** Lines 449 to 486: from the departures and the decoded feed to the
    value stored in [self.info]. *)
Definition route_statuses (vehicle_positions : gmap string Position)
    (feed : FeedMessage) (next_times : list Departure)
  : gmap string (gmap string (list StopDetails)) :=
  let departure_times :=
    foldl (fun departure_times arrival_time =>
             append_details departure_times
               (dep_route arrival_time) (dep_stop_name arrival_time)
               (details_of vehicle_positions feed arrival_time))
          ∅ next_times in
  (* Sort by arrival time *)
  fmap (M := gmap string) (fmap (M := gmap string) (sorted arrival_time))
    departure_times.

(** Lines 499 to 510: [positions], filled from the entities in feed
    order.  [not vehicle.trip.route_id] holds for the empty text. *)
Definition positions_of (feed : FeedMessage) : gmap string Position :=
  foldl (fun positions e =>
           let vehicle := entity_vehicle e in
           if String.eqb (vp_route_id vehicle) ""
           then positions     (* Vehicle is not in service *)
           else <[vp_vehicle_id vehicle := vp_position vehicle]> positions)
        ∅ (entity feed).

Section Data.
Variable w : World.
Variable self : PublicTransportData.

(** Get the latest data. *)
Definition _update_route_statuses
    (vehicle_positions : gmap string Position)
  : M (gmap string (gmap string (list StopDetails))) :=
  let* next_times := get_times w (_route_deps self) (_set_limit self) in
  let* response :=
    http_get w (_trip_update_url self) (_headers self) 30 in
  do (if status_code response =? 200 then ret tt
      else emit (LogError
        "Updating route status got  {response.status_code}:{response.content}"))
  then
  let* feed := parse_feed w (content response) in
  ret (route_statuses vehicle_positions feed next_times).

Definition _get_vehicle_positions : M (gmap string Position) :=
  let* response :=
    http_get w (_vehicle_position_url self) (_headers self) 60 in
  do (if status_code response =? 200 then ret tt
      else emit (LogError
        "Updating vehicle positions got {response.status_code}:{response.content}"))
  then
  let* feed := parse_feed w (content response) in
  ret (positions_of feed).

(** Update for the data object: the new value of [self.info]. *)
Definition update : M (gmap string (gmap string (list StopDetails))) :=
  let* positions :=
    if String.eqb (_vehicle_position_url self) ""
    then ret ∅ else _get_vehicle_positions in
  _update_route_statuses positions.

End Data.

End Sensor.

(** ** The entity shown to the user: [PublicTransportSensor] *)

Module Entity.
Import Feed Sensor.
Local Open Scope string_scope.

Definition ATTR_STOP_NAME : string := "Stop Name".
Definition ATTR_ROUTE : string := "Route".
Definition ATTR_DUE_IN : string := "Due in".
Definition ATTR_NEXT_ARRIVAL : string := "next_arrival".
Definition ATTR_HITS : string := "arrivals".
Definition ATTR_DEP_TIME : string := "departure_time".
Definition ICON : string := "mdi:bus".

(** A value of the state or of an attribute: an integer, a text, or a
    coordinate of a position (carried as in [Feed.Position]). *)
Inductive attr_value : Set :=
| AttrInt (z : Z)
| AttrText (s : string)
| AttrCoordinate (bits : Z).

(** The sensor keeps a reference to the shared data object; the
    functions below take the current value of its [info]. *)
Record PublicTransportSensor : Set := {
  _stop_name : string;
  _route_no : string }.

Section WithConstants.
(** [ATTR_LATITUDE] and [ATTR_LONGITUDE] come from [homeassistant.const],
    which is not part of this repository. *)
Variables ATTR_LATITUDE ATTR_LONGITUDE : string.

Section WithInfo.
Variable info : gmap string (gmap string (list StopDetails)).
Variable self : PublicTransportSensor.

(** Return the sensor name. *)
Definition name : string := _stop_name self.

Definition _get_next_buses : list StopDetails :=
  default [] (default ∅ (info !! _route_no self) !! _stop_name self).

(** Return the state of the sensor. *)
Definition state : attr_value :=
  let next_buses := _get_next_buses in
  match next_buses with
  | first :: _ => AttrInt (arrival_time first)
  | [] => AttrText "-"
  end.

(** Return the extra state attributes. *)
Definition extra_state_attributes : gmap string attr_value :=
  let next_buses := _get_next_buses in
  let arrivals := pretty (length next_buses) in
  let next_arrival := "-" in
  let departure_time := "-" in
  let attrs : gmap string attr_value :=
    <[ATTR_DEP_TIME := AttrText departure_time]>
      (<[ATTR_HITS := AttrText arrivals]>
        (<[ATTR_NEXT_ARRIVAL := AttrText next_arrival]>
          (<[ATTR_ROUTE := AttrText (_route_no self)]>
            (<[ATTR_STOP_NAME := AttrText (_stop_name self)]>
              (<[ATTR_DUE_IN := state]> ∅))))) in
  let attrs :=
    match next_buses with
    | first :: _ =>
        let attrs := <[ATTR_DEP_TIME := AttrText (dep_time first)]> attrs in
        (* [if next_buses[0].position]: [0] and [None] are false, a
           position message is an object, hence true *)
        match position first with
        | PyPosition p =>
            <[ATTR_LONGITUDE := AttrCoordinate (longitude p)]>
              (<[ATTR_LATITUDE := AttrCoordinate (latitude p)]> attrs)
        | _ => attrs
        end
    | [] => attrs
    end in
  match next_buses with
  | _ :: second :: _ =>
      <[ATTR_NEXT_ARRIVAL := AttrInt (arrival_time second)]> attrs
  | _ => attrs
  end.

(** Return the unit of the state which is in minutes. *)
Definition unit_of_measurement : string := "min".

(** Icon to use in the frontend, if any. *)
Definition icon : string := ICON.

End WithInfo.
End WithConstants.

End Entity.

(** * Properties *)

(** ** The stable sort and the slice *)

Module PyFacts.
Import Py.

Lemma filter_none {A} (P : A -> Prop) `{forall x, Decision (P x)} (l : list A) :
  Forall (fun x => ~ P x) l -> filter P l = [].
Proof.
  induction 1 as [|x l Hx _ IH]; [done|].
  by rewrite filter_cons_False.
Qed.

Section Sorting.
Context {A : Type} (key : A -> Z).

Definition key_le (x y : A) : Prop := key x <= key y.
Definition key_lt (x y : A) : Prop := key x < key y.

Lemma sorted_snoc l x : sorted key (l ++ [x]) = insort key x (sorted key l).
Proof. unfold sorted. by rewrite foldl_snoc. Qed.

Lemma insort_perm x l : insort key x l ≡ₚ x :: l.
Proof.
  induction l as [|y l IH]; simpl; [done|].
  destruct (key x <? key y); [done|].
  rewrite IH. apply Permutation_swap.
Qed.

Lemma sorted_perm l : sorted key l ≡ₚ l.
Proof.
  induction l as [|x l IH] using rev_ind; [done|].
  rewrite sorted_snoc, insort_perm, IH.
  by rewrite Permutation_cons_append.
Qed.

Lemma insort_sorted x l :
  StronglySorted key_le l -> StronglySorted key_le (insort key x l).
Proof.
  induction l as [|y l IH]; simpl; intros Hs.
  - repeat constructor.
  - apply StronglySorted_cons in Hs as [Hy Hl].
    destruct (Z.ltb_spec (key x) (key y)) as [Hlt|Hge].
    + apply StronglySorted_cons. split.
      * constructor; [unfold key_le; lia|].
        eapply Forall_impl; [exact Hy|]. unfold key_le. intros; lia.
      * by apply StronglySorted_cons.
    + apply StronglySorted_cons. split; [|by apply IH].
      rewrite insort_perm. by constructor.
Qed.

Lemma sorted_sorted l : StronglySorted key_le (sorted key l).
Proof.
  induction l as [|x l IH] using rev_ind; [constructor|].
  rewrite sorted_snoc. by apply insort_sorted.
Qed.

(** Stability: the elements of any one key keep their order. *)
Lemma insort_stable k x l :
  StronglySorted key_le l ->
  filter (fun y => key y = k) (insort key x l)
  = filter (fun y => key y = k) l ++ filter (fun y => key y = k) [x].
Proof.
  induction l as [|y l IH]; simpl; intros Hs; [done|].
  apply StronglySorted_cons in Hs as [Hy Hl].
  destruct (Z.ltb_spec (key x) (key y)) as [Hlt|Hge].
  - rewrite !filter_cons, filter_nil.
    destruct (decide (key x = k)) as [Hx|Hx]; [|by rewrite app_nil_r].
    assert (Hnone : filter (fun y => key y = k) (y :: l) = []).
    { (* every key from [y] on is larger than [k] *)
      apply filter_none. constructor; [lia|].
      eapply Forall_impl; [exact Hy|]. unfold key_le. intros; lia. }
    rewrite filter_cons in Hnone. by rewrite Hnone.
  - rewrite (filter_cons _ y (insort key x l)), (filter_cons _ y l), IH by done.
    by destruct (decide (key y = k)).
Qed.

Lemma sorted_stable k l :
  filter (fun y => key y = k) (sorted key l) = filter (fun y => key y = k) l.
Proof.
  induction l as [|x l IH] using rev_ind; [done|].
  rewrite sorted_snoc, insort_stable, filter_app, IH by apply sorted_sorted.
  done.
Qed.

(** With pairwise distinct keys the order is strict. *)
Lemma sorted_strict l :
  NoDup (key <$> l) -> StronglySorted key_lt (sorted key l).
Proof.
  intros Hnd.
  assert (Hnd' : NoDup (key <$> sorted key l)) by by rewrite sorted_perm.
  pose proof (sorted_sorted l) as Hs.
  induction Hs as [|x l' Hs IH Hx]; [constructor|].
  rewrite fmap_cons in Hnd'. apply NoDup_cons in Hnd' as [Hnotin Hnd'].
  constructor; [by apply IH|].
  apply Forall_forall. intros y Hy.
  rewrite Forall_forall in Hx. specialize (Hx y Hy).
  unfold key_le, key_lt in *.
  assert (key x <> key y); [|lia].
  intros Heq. apply Hnotin. rewrite Heq. by apply list_elem_of_fmap_2.
Qed.

End Sorting.

Lemma slice_to_nonneg {A} (l : list A) (stop : Z) :
  0 <= stop -> slice_to l stop = take (Z.to_nat stop) l.
Proof. unfold slice_to. intros. by destruct (Z.ltb_spec stop 0); [lia|]. Qed.

Lemma slice_to_take {A} (l : list A) (stop : Z) :
  exists n : nat, slice_to l stop = take n l.
Proof. unfold slice_to. destruct (stop <? 0); eauto. Qed.

Lemma slice_to_Forall {A} (P : A -> Prop) (l : list A) (stop : Z) :
  Forall P l -> Forall P (slice_to l stop).
Proof. unfold slice_to. intros. destruct (stop <? 0); by apply Forall_take. Qed.

End PyFacts.

(** ** Runs *)

Module RunFacts.
Import Py Clock Db Feed Run.

Lemma bind_returned {A B} (m : M A) (k : A -> M B) s b s' :
  bind m k s = (Returned b, s') ->
  exists a s1, m s = (Returned a, s1) /\ k a s1 = (Returned b, s').
Proof.
  unfold bind. destruct (m s) as [[a|e] s1]; [eauto|discriminate].
Qed.

Lemma bind_run {A B} (m : M A) (k : A -> M B) s a s1 :
  m s = (Returned a, s1) -> bind m k s = k a s1.
Proof. unfold bind. by intros ->. Qed.

Lemma bind_raised {A B} (m : M A) (k : A -> M B) s e s1 :
  m s = (Raised e, s1) -> bind m k s = (Raised e, s1).
Proof. unfold bind. by intros ->. Qed.

Lemma ret_returned {A} (a b : A) s s' :
  ret a s = (Returned b, s') -> b = a /\ s' = s.
Proof. unfold ret. by intros [= -> ->]. Qed.

Lemma lift_returned {A} (o : outcome A) a s s' :
  lift o s = (Returned a, s') -> o = Returned a /\ s' = s.
Proof. unfold lift. by intros [= -> ->]. Qed.

Lemma now_returned w t s s' :
  now w s = (Returned t, s') -> t = clock w (ticks s).
Proof. unfold now. by intros [= <- _]. Qed.

End RunFacts.

(** Break a successful run of a sequence of binds into its steps. *)
Ltac run_steps :=
  repeat match goal with
    | H : Run.bind _ _ _ = (Py.Returned _, _) |- _ =>
        apply RunFacts.bind_returned in H as (? & ? & ? & H)
    | H : Run.ret _ _ = (Py.Returned _, _) |- _ =>
        apply RunFacts.ret_returned in H as [-> ->]
    | H : Run.raise _ _ = (Py.Returned _, _) |- _ => discriminate H
    end.

(** ** [get_times] *)

Module GetTimesFacts.
Import Py Clock Db Feed Run Sensor RunFacts PyFacts.

Local Arguments epoch_of : simpl never.
Local Arguments strftime : simpl never.
Local Arguments strptime : simpl never.
Local Arguments validate_service : simpl never.

Section Invariant.
Variable w : World.

(** The departure was computed from a reading of the clock that is not
    after its scheduled departure. *)
Definition not_past (d : Departure) : Prop :=
  exists (n : nat) (tm_dep tm_now : struct_time),
    strptime (dep_time_str d) pattern = Returned tm_dep /\
    strptime (strftime (clock w n) pattern1) pattern = Returned tm_now /\
    mktime (utcoffset w) tm_now <= mktime (utcoffset w) tm_dep /\
    dep_minutes d
    = int_truediv (mktime (utcoffset w) tm_dep - mktime (utcoffset w) tm_now) 60.

Lemma not_past_minutes d : not_past d -> 0 <= dep_minutes d.
Proof.
  intros (n & tm_dep & tm_now & _ & _ & Hle & ->).
  unfold int_truediv. apply Z.quot_pos; lia.
Qed.

Lemma epoch_of_text s fmt st z st' :
  epoch_of w (SqlText s) fmt st = (Returned z, st') ->
  st' = st /\ exists tm, strptime s fmt = Returned tm
                        /\ z = mktime (utcoffset w) tm.
Proof.
  unfold epoch_of. intros H.
  apply bind_returned in H as (tm & s1 & Htm & H).
  apply lift_returned in Htm as [Htm ->].
  apply ret_returned in H as [-> ->]. eauto.
Qed.

Lemma trip_step_not_past stop req_route req_stop_id stop_times row s out s' :
  Forall not_past stop_times ->
  trip_step w stop req_route req_stop_id stop_times row s = (Returned out, s') ->
  Forall not_past out.
Proof.
  intros Hall. unfold trip_step. destruct row as [trip_id service_id].
  destruct (select_stop_time _ _ _) as [[[arr dep] sid]|]; simpl;
    [|by intros [-> _]%ret_returned].
  intros H. run_steps.
  match goal with
  | H1 : epoch_of w (SqlText dep) _ _ = _ |- _ =>
      apply epoch_of_text in H1 as (-> & tm_dep & Hdep & ->)
  end.
  match goal with
  | H1 : now w _ = _ |- _ => apply now_returned in H1 as ->
  end.
  match goal with
  | H1 : epoch_of w (SqlText (strftime _ _)) _ _ = _ |- _ =>
      apply epoch_of_text in H1 as (-> & tm_now & Hnow & ->)
  end.
  destruct (Z.leb_spec (mktime (utcoffset w) tm_now)
                       (mktime (utcoffset w) tm_dep)) as [Hle|Hgt];
    [|by apply ret_returned in H as [-> _]].
  run_steps.
  match goal with
  | b : bool |- _ => destruct b
  end; apply ret_returned in H as [-> _]; [|done].
  apply Forall_app. split; [done|]. constructor; [|constructor].
  eexists _, tm_dep, tm_now. by repeat split.
Qed.

Lemma trips_loop_not_past stop req_route req_stop_id rows :
  forall stop_times s out s',
    Forall not_past stop_times ->
    trips_loop w stop req_route req_stop_id rows stop_times s
    = (Returned out, s') ->
    Forall not_past out.
Proof.
  induction rows as [|row rows IH]; simpl; intros stop_times s out s' Hall H.
  - by apply ret_returned in H as [-> _].
  - run_steps. eapply IH; [|done]. by eapply trip_step_not_past.
Qed.

Lemma selector_step_not_past stop_times r_s s out s' :
  Forall not_past stop_times ->
  selector_step w stop_times r_s s = (Returned out, s') ->
  Forall not_past out.
Proof.
  intros Hall. unfold selector_step. destruct r_s as [[stop route] operator].
  destruct (select_stop _ _) as [stop_row|]; simpl; [|done].
  destruct (select_route _ _ _) as [route_row|]; simpl; [|done].
  intros H. run_steps. by eapply trips_loop_not_past.
Qed.

Lemma selectors_loop_not_past route_stops :
  forall stop_times s out s',
    Forall not_past stop_times ->
    selectors_loop w route_stops stop_times s = (Returned out, s') ->
    Forall not_past out.
Proof.
  induction route_stops as [|r_s rest IH]; simpl;
    intros stop_times s out s' Hall H.
  - by apply ret_returned in H as [-> _].
  - run_steps. eapply IH; [|done]. by eapply selector_step_not_past.
Qed.

(** [get_times] is the loops followed by the sort and the slice. *)
Lemma get_times_collected route_stops set_limit s all s' :
  selectors_loop w route_stops [] s = (Returned all, s') ->
  get_times w route_stops set_limit s
  = (Returned (slice_to (sorted dep_minutes all) set_limit), s').
Proof. intros H. unfold get_times. by rewrite (bind_run _ _ _ _ _ H). Qed.

Lemma get_times_returned route_stops set_limit s out s' :
  get_times w route_stops set_limit s = (Returned out, s') ->
  exists all, selectors_loop w route_stops [] s = (Returned all, s')
              /\ out = slice_to (sorted dep_minutes all) set_limit.
Proof.
  unfold get_times. intros H. run_steps. eauto.
Qed.

End Invariant.
End GetTimesFacts.

(** ** A small schedule to run the sensor on *)

Module Sample.
Import Py Clock Db Feed Run Sensor.
Local Open Scope string_scope.

Definition every_day (service first last : string) : calendar_row :=
  {| c_feed_id := 1; c_service_id := service;
     c_monday := 1; c_tuesday := 1; c_wednesday := 1; c_thursday := 1;
     c_friday := 1; c_saturday := 1; c_sunday := 1;
     c_start_date := first; c_end_date := last |}.

Definition at_stop (trip stop time : string) : stop_times_row :=
  {| st_trip_id := trip; st_stop_id := stop;
     st_arrival_time := time; st_departure_time := time |}.

(** Route 145 of operator OP1 serves Main St with four trips of service
    YEAR (all of 2024) and one trip of service JUNE, which ends on
    2024-06-30.  Route 7 has one trip whose service ONLY_DATES has no row
    in [calendar]. *)
Definition schedule : Database :=
  {| stops := [ {| s_stop_id := "S1"; s_stop_name := "Main St" |};
                {| s_stop_id := "S2"; s_stop_name := "High St" |} ];
     routes := [ {| r_agency_id := "OP1"; r_route_id := "R145";
                    r_route_short_name := "145" |};
                 {| r_agency_id := "OP1"; r_route_id := "R7";
                    r_route_short_name := "7" |};
                 {| r_agency_id := "OP1"; r_route_id := "R9";
                    r_route_short_name := "9" |} ];
     trips := [ {| t_route_id := "R145"; t_trip_id := "T1";
                   t_service_id := "YEAR" |};
                {| t_route_id := "R145"; t_trip_id := "T2";
                   t_service_id := "YEAR" |};
                {| t_route_id := "R145"; t_trip_id := "T3";
                   t_service_id := "YEAR" |};
                {| t_route_id := "R145"; t_trip_id := "T4";
                   t_service_id := "YEAR" |};
                {| t_route_id := "R9"; t_trip_id := "T5";
                   t_service_id := "JUNE" |};
                {| t_route_id := "R7"; t_trip_id := "T6";
                   t_service_id := "ONLY_DATES" |} ];
     stop_times := [ at_stop "T1" "S1" "1970-01-01 12:10:30.000000";
                     at_stop "T2" "S1" "1970-01-01 12:12:00.000000";
                     at_stop "T3" "S1" "1970-01-01 12:45:00.000000";
                     at_stop "T4" "S1" "1970-01-01 11:10:00.000000";
                     at_stop "T5" "S2" "1970-01-01 18:00:00.000000";
                     at_stop "T6" "S2" "1970-01-01 18:30:00.000000" ];
     calendar := [ every_day "YEAR" "2024-01-01" "2024-12-31";
                   every_day "JUNE" "2024-06-01" "2024-06-30" ];
     calendar_dates := [ {| cd_service_id := "ONLY_DATES";
                            cd_date := "2024-07-01" |} ] |}.

(** 2024-06-30, a Sunday, at [h]:[m]:00.5 local time. *)
Definition june_30 (h m : Z) : datetime :=
  {| year := 2024; month := 6; day := 30;
     hour := h; minute := m; second := 0; microsecond := 500000 |}.

(** A world whose clock stands at [t], with a transport answering
    [response] and a decoder turning any body into [feed]. *)
Definition world_at (t : datetime) (response : Response)
    (feed : FeedMessage) : World :=
  {| gtfs_db := schedule;
     clock := fun _ => t;
     utcoffset := 0;
     requests_get := fun _ _ => Returned response;
     ParseFromString := fun _ => Returned feed |}.

Definition ok_empty : Response := {| status_code := 200; content := [] |}.
Definition no_entities : FeedMessage := {| entity := [] |}.

Definition at_noon : World := world_at (june_30 12 0) ok_empty no_entities.

Definition main_st_145 : string * string * string := ("Main St", "145", "OP1").

Definition departure_of (trip : string) (minutes : Z) (time : string)
  : Departure :=
  {| dep_stop_name := "Main St"; dep_route := "145"; dep_trip := trip;
     dep_minutes := minutes; dep_time_str := time |}.

Definition d1 : Departure := departure_of "T1" 10 "1970-01-01 12:10:30.000000".
Definition d2 : Departure := departure_of "T2" 12 "1970-01-01 12:12:00.000000".
Definition d3 : Departure := departure_of "T3" 45 "1970-01-01 12:45:00.000000".

Example get_times_at_noon :
  (get_times at_noon [main_st_145] 30 start).1 = Returned [d1; d2; d3].
Proof. vm_compute. reflexivity. Qed.

Example get_times_at_noon_limit_2 :
  (get_times at_noon [main_st_145] 2 start).1 = Returned [d1; d2].
Proof. vm_compute. reflexivity. Qed.

End Sample.

(** ** The calendar validator: [validate_service] *)

Module CalendarValidator.
Import Py Clock Db Feed Run Sensor RunFacts Sample.
Local Open Scope string_scope.

(** Without a row for the service, [list(days_of_week)] iterates [None]:
    the call raises after its first reading of the clock. *)
Lemma validate_service_no_row w service_id s :
  select_calendar (gtfs_db w) service_id = None ->
  validate_service w service_id s
  = (Raised TypeError, {| ticks := S (ticks s); trace := trace s |}).
Proof. unfold validate_service. intros ->. reflexivity. Qed.

(** C3. The date-range check of the calendar validator is meant to be a
    comparison of whole calendar dates with both ends included.  The code
    compares the current instant with midnight at the start of the last
    day: service JUNE, whose range ends on 2024-06-30, is found valid on
    that day half a second after midnight and not valid at noon. *)
Theorem validate_service_last_day_depends_on_time :
  select_calendar schedule "JUNE"
  = Some (calendar_columns (every_day "JUNE" "2024-06-01" "2024-06-30")) /\
  (validate_service (world_at (june_30 0 0) ok_empty no_entities)
     "JUNE" start).1 = Returned true /\
  (validate_service (world_at (june_30 12 0) ok_empty no_entities)
     "JUNE" start).1 = Returned false.
Proof. vm_compute. repeat split. Qed.

(** C4. A service without a calendar row is to be reported as not found
    and its trip left out.  Service ONLY_DATES has no row: the validator
    raises [TypeError], and so does the whole of [get_times] for a
    selector whose route has a trip of that service. *)
Theorem validate_service_unknown_service_raises :
  select_calendar schedule "ONLY_DATES" = None /\
  (validate_service at_noon "ONLY_DATES" start).1 = Raised TypeError /\
  (get_times at_noon [("High St", "7", "OP1")] 30 start).1
  = Raised TypeError.
Proof. vm_compute. repeat split. Qed.

End CalendarValidator.

(** ** The departure finder: [get_times] *)

Module DepartureFinder.
Import Py Clock Db Feed Run Sensor RunFacts PyFacts GetTimesFacts Sample.
Local Open Scope string_scope.

(** A selector whose route and operator match no row makes
    [valid_operator[1]] subscript [None]. *)
Lemma selector_step_no_route w stop_times stop route operator s :
  is_Some (select_stop (gtfs_db w) stop) ->
  select_route (gtfs_db w) route operator = None ->
  selector_step w stop_times (stop, route, operator) s = (Raised TypeError, s).
Proof. unfold selector_step. intros [row ->] ->. reflexivity. Qed.

(** A selector whose stop name matches no row makes [stop_data[0]]
    subscript [None]. *)
Lemma selector_step_no_stop w stop_times stop route operator s :
  select_stop (gtfs_db w) stop = None ->
  selector_step w stop_times (stop, route, operator) s = (Raised TypeError, s).
Proof. unfold selector_step. intros ->. reflexivity. Qed.

(** C5. A selector that resolves to nothing is to be skipped while the
    other selectors still produce their departures.  Route 999 does not
    exist: with that selector in the list the call raises [TypeError] and
    returns nothing, although the selector for route 145 alone yields
    three departures; the same happens for a stop name that does not
    exist. *)
Theorem get_times_unresolved_selector_raises :
  select_route schedule "999" "OP1" = None /\
  (get_times at_noon [("Main St", "999", "OP1"); main_st_145] 30 start).1
  = Raised TypeError /\
  (get_times at_noon [main_st_145; ("Main St", "999", "OP1")] 30 start).1
  = Raised TypeError /\
  (get_times at_noon [("Low St", "145", "OP1"); main_st_145] 30 start).1
  = Raised TypeError /\
  (get_times at_noon [main_st_145] 30 start).1 = Returned [d1; d2; d3].
Proof. vm_compute. repeat split. Qed.

(** C7, as the claim states it, fails for a negative limit: [l[0:-1]]
    drops the last element only, so two of the three departures are
    returned for the limit -1. *)
Lemma get_times_negative_limit :
  (get_times at_noon [main_st_145] (-1) start).1 = Returned [d1; d2] /\
  ~ (Z.of_nat (length [d1; d2]) <= -1).
Proof. split; [vm_compute; reflexivity|simpl; lia]. Qed.

(** C7 (amended). For every limit, the output of the departure finder
    is a prefix of the stable sort, by minutes until departure, of all
    the departures collected, so that no departure left out is earlier
    than one that is kept; for a limit that is not negative the output
    has at most [limit] elements: the [limit] earliest, or all of them
    when there are fewer. *)
Theorem get_times_keeps_earliest w route_stops set_limit s all s' :
  selectors_loop w route_stops [] s = (Returned all, s') ->
  exists out excluded,
    get_times w route_stops set_limit s = (Returned out, s') /\
    (out ++ excluded)%list = sorted dep_minutes all /\
    sorted dep_minutes all ≡ₚ all /\
    StronglySorted (key_le dep_minutes) (sorted dep_minutes all) /\
    (forall k, filter (fun d => dep_minutes d = k) (sorted dep_minutes all)
               = filter (fun d => dep_minutes d = k) all) /\
    (forall x y, x ∈ out -> y ∈ excluded -> dep_minutes x <= dep_minutes y) /\
    (0 <= set_limit ->
     Z.of_nat (length out) <= set_limit /\
     length out = (Z.to_nat set_limit `min` length all)%nat).
Proof.
  intros Hall.
  destruct (slice_to_take (sorted dep_minutes all) set_limit) as [n Hn].
  exists (slice_to (sorted dep_minutes all) set_limit),
         (drop n (sorted dep_minutes all)).
  pose proof (sorted_sorted dep_minutes all) as Hsorted.
  split; [|split; [|split; [|split; [|split; [|split]]]]].
  - by apply get_times_collected.
  - rewrite Hn. apply take_drop.
  - apply sorted_perm.
  - done.
  - intros k. apply sorted_stable.
  - intros x y Hx Hy. rewrite Hn in Hx.
    rewrite <- (take_drop n) in Hsorted.
    by eapply (StronglySorted_app_1_elem_of (key_le dep_minutes)).
  - intros Hlimit. rewrite slice_to_nonneg, length_take by done.
    rewrite sorted_perm. lia.
Qed.

Lemma get_times_keeps_earliest_witness :
  exists out excluded,
    get_times at_noon [main_st_145] 2 start
    = (Returned out, {| ticks := 10; trace := [] |}) /\
    (out ++ excluded)%list = sorted dep_minutes [d1; d2; d3] /\
    sorted dep_minutes [d1; d2; d3] ≡ₚ [d1; d2; d3] /\
    StronglySorted (key_le dep_minutes) (sorted dep_minutes [d1; d2; d3]) /\
    (forall k, filter (fun d => dep_minutes d = k)
                 (sorted dep_minutes [d1; d2; d3])
               = filter (fun d => dep_minutes d = k) [d1; d2; d3]) /\
    (forall x y, x ∈ out -> y ∈ excluded -> dep_minutes x <= dep_minutes y) /\
    (0 <= 2 ->
     Z.of_nat (length out) <= 2 /\
     length out = (Z.to_nat 2 `min` length [d1; d2; d3])%nat).
Proof.
  apply (get_times_keeps_earliest at_noon [main_st_145] 2 start).
  vm_compute. reflexivity.
Defined.

(** C9. Every departure returned by the departure finder has a number
    of minutes until departure that is not negative: it was computed from
    a reading of the clock that is not after the scheduled departure. *)
Theorem get_times_minutes_nonneg w route_stops set_limit s out s' :
  get_times w route_stops set_limit s = (Returned out, s') ->
  Forall (fun d => 0 <= dep_minutes d /\ not_past w d) out.
Proof.
  intros (all & Hall & ->)%get_times_returned.
  apply selectors_loop_not_past in Hall; [|constructor].
  apply slice_to_Forall. rewrite sorted_perm.
  eapply Forall_impl; [exact Hall|].
  intros d Hd. split; [by eapply not_past_minutes|done].
Qed.

Lemma get_times_minutes_nonneg_witness :
  Forall (fun d => 0 <= dep_minutes d /\ not_past at_noon d) [d1; d2; d3].
Proof.
  apply (get_times_minutes_nonneg at_noon [main_st_145] 30 start
           [d1; d2; d3] {| ticks := 10; trace := [] |}).
  vm_compute. reflexivity.
Defined.

End DepartureFinder.

(** ** The merge of departures and feed *)

Module MergeFacts.
Import Py Clock Db Feed Run Sensor PyFacts.

Definition Zsum (l : list Z) : Z := foldr Z.add 0 l.

Lemma Zsum_app l k : Zsum (l ++ k) = Zsum l + Zsum k.
Proof. induction l as [|x l IH]; simpl; lia. Qed.

(** The arrival delays, in seconds, of a list of stop-time updates: one
    for each update that has the arrival field. *)
Definition update_delays (updates : list StopTimeUpdate) : list Z :=
  omap (fun stop => delay <$> arrival stop) updates.

(** The arrival delays an entity contributes to [trip]. *)
Definition entity_delays (trip : string) (e : FeedEntity) : list Z :=
  match trip_update e with
  | Some tu =>
      if String.eqb (tu_trip_id tu) trip
      then update_delays (stop_time_update tu) else []
  | None => []
  end.

(** All the arrival delays the feed holds for [trip], in feed order. *)
Definition arrival_delays (feed : FeedMessage) (trip : string) : list Z :=
  concat (entity_delays trip <$> entity feed).

(** Whole minutes of a delay in seconds, truncated toward zero. *)
Definition truncated_minutes (seconds : Z) : Z := Z.quot seconds 60.

Lemma stop_time_updates_loop_sum updates modified_time :
  stop_time_updates_loop updates modified_time
  = modified_time + Zsum (truncated_minutes <$> update_delays updates).
Proof.
  unfold stop_time_updates_loop, update_delays.
  induction updates as [|stop updates IH] using rev_ind; simpl; [lia|].
  rewrite foldl_snoc, IH, omap_app, fmap_app, Zsum_app. simpl.
  destruct (arrival stop) as [a|]; simpl;
    unfold truncated_minutes, int_truediv; lia.
Qed.

Lemma entities_fold_minutes vehicle_positions trip entities m p :
  (foldl (entity_step vehicle_positions trip) (m, p) entities).1
  = m + Zsum (truncated_minutes <$> concat (entity_delays trip <$> entities)).
Proof.
  induction entities as [|e entities IH] using rev_ind; simpl; [lia|].
  rewrite foldl_snoc, fmap_app, concat_app, fmap_app, Zsum_app. simpl.
  rewrite app_nil_r.
  destruct (foldl _ _ entities) as [m' p']. simpl in IH. subst m'.
  unfold entity_step, entity_delays.
  destruct (trip_update e) as [tu|]; simpl; [|lia].
  destruct (String.eqb _ _); simpl; [|lia].
  rewrite stop_time_updates_loop_sum. lia.
Qed.

(** The position found is that of the vehicle named by the last entity
    of the feed that has a trip update, whichever its trip. *)
Lemma entities_fold_position vehicle_positions trip entities m p :
  (foldl (entity_step vehicle_positions trip) (m, p) entities).2
  = default p
      (last ((fun tu => positions_get vehicle_positions (tu_vehicle_id tu))
             <$> omap trip_update entities)).
Proof.
  induction entities as [|e entities IH] using rev_ind; simpl; [done|].
  rewrite foldl_snoc, omap_app, fmap_app. simpl.
  destruct (foldl _ _ entities) as [m' p']. simpl in IH. subst p'.
  unfold entity_step.
  destruct (trip_update e) as [tu|]; simpl.
  - by rewrite last_snoc.
  - by rewrite app_nil_r.
Qed.

Lemma details_of_arrival_time vehicle_positions feed d :
  arrival_time (details_of vehicle_positions feed d)
  = (foldl (entity_step vehicle_positions (dep_trip d))
           (dep_minutes d, PyZero) (entity feed)).1.
Proof. unfold details_of. by destruct (foldl _ _ _). Qed.

Lemma details_of_position vehicle_positions feed d :
  position (details_of vehicle_positions feed d)
  = (foldl (entity_step vehicle_positions (dep_trip d))
           (dep_minutes d, PyZero) (entity feed)).2.
Proof. unfold details_of. by destruct (foldl _ _ _). Qed.

(** The position does not depend on the departure it is attached to. *)
Lemma details_of_position_any_trip vehicle_positions feed d d' :
  position (details_of vehicle_positions feed d)
  = position (details_of vehicle_positions feed d').
Proof. by rewrite !details_of_position, !entities_fold_position. Qed.

(** *** Groups *)

(** The arrivals stored for a route and a stop, none when either level
    is missing. *)
Definition arrivals_at (info : gmap string (gmap string (list StopDetails)))
    (route stop : string) : list StopDetails :=
  default [] (info !! route ≫= (.!! stop)).

(** The departures of a route at a stop, in the order of [next_times]. *)
Definition departures_at (next_times : list Departure) (route stop : string)
  : list Departure :=
  filter (fun d => dep_route d = route /\ dep_stop_name d = stop) next_times.

Lemma append_details_at info route stop details route' stop' :
  arrivals_at (append_details info route stop details) route' stop'
  = if decide (route = route' /\ stop = stop')
    then arrivals_at info route stop ++ [details]
    else arrivals_at info route' stop'.
Proof.
  unfold arrivals_at, append_details.
  destruct (decide (route = route' /\ stop = stop')) as [[<- <-]|Hne].
  - rewrite !lookup_insert_eq. simpl. rewrite lookup_insert_eq. simpl.
    destruct (info !! route) as [by_stop|]; simpl; [|done].
    by destruct (by_stop !! stop) as [[|d l]|].
  - destruct (decide (route = route')) as [<-|Hr].
    + assert (stop <> stop') as Hs by (intros ->; by apply Hne).
      rewrite lookup_insert_eq. simpl. rewrite lookup_insert_ne by done.
      by destruct (info !! route).
    + by rewrite lookup_insert_ne.
Qed.

Lemma fold_append_details_at vehicle_positions feed next_times :
  forall info route stop,
    arrivals_at
      (foldl (fun departure_times arrival_time =>
                append_details departure_times
                  (dep_route arrival_time) (dep_stop_name arrival_time)
                  (details_of vehicle_positions feed arrival_time))
             info next_times) route stop
    = arrivals_at info route stop
      ++ (details_of vehicle_positions feed
          <$> departures_at next_times route stop).
Proof.
  unfold departures_at.
  induction next_times as [|d next_times IH]; simpl; intros info route stop.
  - by rewrite app_nil_r.
  - rewrite IH, append_details_at, filter_cons.
    destruct (decide (dep_route d = route /\ dep_stop_name d = stop))
      as [[<- <-]|Hne].
    + by rewrite <- app_assoc.
    + done.
Qed.

(** A group of [self.info] is the stable sort of the details of the
    departures of its route and stop. *)
Lemma route_statuses_group vehicle_positions feed next_times
    route stop by_stop group :
  route_statuses vehicle_positions feed next_times !! route = Some by_stop ->
  by_stop !! stop = Some group ->
  group = sorted arrival_time
            (details_of vehicle_positions feed
             <$> departures_at next_times route stop).
Proof.
  unfold route_statuses. rewrite lookup_fmap.
  intros (by_stop0 & Hroute & ->)%fmap_Some. rewrite lookup_fmap.
  intros (group0 & Hstop & ->)%fmap_Some. f_equal.
  pose proof (fold_append_details_at vehicle_positions feed next_times
                ∅ route stop) as Hat.
  unfold arrivals_at at 1 in Hat. rewrite Hroute in Hat. simpl in Hat.
  rewrite Hstop in Hat. simpl in Hat. rewrite Hat.
  unfold arrivals_at. by rewrite lookup_empty.
Qed.

End MergeFacts.

Module ArrivalMerger.
Import Py Clock Db Feed Run Sensor PyFacts MergeFacts Sample.
Local Open Scope string_scope.

(** The effective arrival time as the specification words it: the
    minutes until departure plus the floor of the summed seconds of
    arrival delay divided by 60. *)
Definition specified_arrival_time (feed : FeedMessage) (d : Departure) : Z :=
  dep_minutes d + Zsum (arrival_delays feed (dep_trip d)) / 60.

Definition arrives (seconds : Z) : StopTimeUpdate :=
  {| arrival := Some {| delay := seconds |} |}.

Definition trip_entity (trip vehicle_id : string)
    (updates : list StopTimeUpdate) : FeedEntity :=
  {| trip_update := Some {| tu_trip_id := trip; stop_time_update := updates;
                            tu_vehicle_id := vehicle_id |};
     vehicle := None |}.

(** Trip T1 is reported 30 seconds late at each of two stops. *)
Definition twice_half_a_minute_late : FeedMessage :=
  {| entity := [ trip_entity "T1" "V1" [arrives 30; arrives 30] ] |}.

(** Trip T1 is reported 30 seconds early at one stop. *)
Definition half_a_minute_early : FeedMessage :=
  {| entity := [ trip_entity "T1" "V1" [arrives (-30)] ] |}.

(** Trip T1 is reported 120 seconds late at one stop. *)
Definition two_minutes_late : FeedMessage :=
  {| entity := [ trip_entity "T1" "V1" [arrives 120] ] |}.

(** Trips T1 and T2 run with vehicles V1 and V2. *)
Definition two_trips : FeedMessage :=
  {| entity := [ trip_entity "T1" "V1" []; trip_entity "T2" "V2" [] ] |}.

Definition p1 : Position := {| latitude := 1112834048; longitude := 3234402304 |}.
Definition p2 : Position := {| latitude := 1112850432; longitude := 3234418688 |}.

Definition fleet : gmap string Position := <["V1" := p1]> (<["V2" := p2]> ∅).

(** C1, as the claim states it, fails: two delays of 30 seconds add
    nothing in the code although they sum to a minute, and a delay of
    -30 seconds subtracts nothing although its floor is -1 minute. *)
Lemma details_of_not_floor_of_sum :
  arrival_time (details_of ∅ twice_half_a_minute_late d1) = 10 /\
  specified_arrival_time twice_half_a_minute_late d1 = 11 /\
  arrival_time (details_of ∅ half_a_minute_early d1) = 10 /\
  specified_arrival_time half_a_minute_early d1 = 9.
Proof. vm_compute. repeat split. Qed.

(** C1 (amended). The effective arrival time of a departure is its
    minutes until departure plus the sum, over the stop-time updates that
    have an arrival in the trip-update entities of its trip, of the
    arrival delay in seconds divided by 60 and truncated toward zero:
    each update is truncated on its own. *)
Theorem details_of_truncates_each_update vehicle_positions feed d :
  arrival_time (details_of vehicle_positions feed d)
  = dep_minutes d
    + Zsum (truncated_minutes <$> arrival_delays feed (dep_trip d)).
Proof.
  rewrite details_of_arrival_time. apply entities_fold_minutes.
Qed.

(** C6. The position attached to a departure is to come from the
    trip-update entity of its own trip, and to be absent when the feed
    does not mention the trip.  In the code the lookup runs for every
    entity that has a trip update, so the last one wins: T1, run by V1,
    gets the position of V2; T3, which the feed does not mention, gets it
    too; and with no trip update at all the position is the integer 0
    the variable starts from. *)
Theorem details_of_position_of_last_entity :
  fleet !! "V1" = Some p1 /\
  position (details_of fleet two_trips d1) = PyPosition p2 /\
  position (details_of fleet two_trips d3) = PyPosition p2 /\
  position (details_of fleet no_entities d1) = PyZero.
Proof. vm_compute. repeat split. Qed.

(** C8, as the claim states it, fails: 10 and 12 minutes until departure
    are distinct, yet with T1 two minutes late both arrivals are due in
    12 minutes. *)
Lemma route_statuses_equal_arrival_times :
  NoDup (dep_minutes <$> [d1; d2]) /\
  arrival_time
    <$> arrivals_at (route_statuses ∅ two_minutes_late [d1; d2])
          "145" "Main St" = [12; 12] /\
  ~ StronglySorted Z.lt [12; 12].
Proof.
  split; [|split].
  - simpl. apply NoDup_cons. split; [|apply NoDup_singleton].
    intros H%list_elem_of_singleton. discriminate H.
  - vm_compute. reflexivity.
  - intros [H _]%StronglySorted_cons. apply Forall_cons in H as [H _]. lia.
Qed.

(** C8 (amended). Within each group of route and stop the merge output
    is ascending by effective arrival time, and strictly ascending when
    the effective arrival times of the group are pairwise distinct. *)
Theorem route_statuses_ascending vehicle_positions feed next_times
    route stop by_stop group :
  route_statuses vehicle_positions feed next_times !! route = Some by_stop ->
  by_stop !! stop = Some group ->
  StronglySorted (key_le arrival_time) group /\
  (NoDup (arrival_time <$> group) ->
   StronglySorted (key_lt arrival_time) group).
Proof.
  intros Hroute Hstop.
  rewrite (route_statuses_group _ _ _ _ _ _ _ Hroute Hstop).
  split; [apply sorted_sorted|].
  intros Hnd. apply sorted_strict. by rewrite sorted_perm in Hnd.
Qed.

Definition due (minutes : Z) (time : string) : StopDetails :=
  {| arrival_time := minutes; position := PyZero; dep_time := time |}.

Lemma route_statuses_ascending_witness :
  StronglySorted (key_le arrival_time) [due 10 " 12:10"; due 12 " 12:12"] /\
  (NoDup (arrival_time <$> [due 10 " 12:10"; due 12 " 12:12"]) ->
   StronglySorted (key_lt arrival_time)
     [due 10 " 12:10"; due 12 " 12:12"]).
Proof.
  apply (route_statuses_ascending ∅ no_entities [d1; d2] "145" "Main St"
           {["Main St" := [due 10 " 12:10"; due 12 " 12:12"]]}).
  - vm_compute. reflexivity.
  - vm_compute. reflexivity.
Defined.

End ArrivalMerger.

(** ** The real-time feed reader *)

Module RealtimeFeedReader.
Import Py Clock Db Feed Run Sensor RunFacts PyFacts MergeFacts Sample.
Local Open Scope string_scope.

(** The outcome of the code that follows the decoding. *)
Definition decoded {A} (after : FeedMessage -> A) (o : outcome FeedMessage)
  : outcome A :=
  match o with
  | Returned feed => Returned (after feed)
  | Raised e => Raised e
  end.

(** The events of one fetch whose status is not 200, oldest first. *)
Definition failed_fetch (url : string) (headers : option string)
    (timeout : Z) (msg : string) (body : list Byte.byte) : list event :=
  [HttpGet url headers timeout; LogError msg; Decode body].

(** From the request on, a fetch whose answer has a status other than
    200 logs, decodes and goes on. *)
Lemma fetch_not_200 {A} w url headers timeout msg response
    (after : FeedMessage -> A) s :
  requests_get w url headers = Returned response ->
  status_code response <> 200 ->
  (let* response := http_get w url headers timeout in
   do (if (status_code response =? 200)%Z then ret tt
       else emit (LogError msg))
   then
   let* feed := parse_feed w (content response) in
   ret (after feed))%run s
  = (decoded after (ParseFromString w (content response)),
     {| ticks := ticks s;
        trace := trace s
                 ++ failed_fetch url headers timeout msg (content response) |}).
Proof.
  intros Hget Hstatus.
  unfold http_get, parse_feed, bind, emit, lift, ret, failed_fetch. simpl.
  rewrite Hget.
  destruct (Z.eqb_spec (status_code response) 200) as [|_]; [done|]. simpl.
  rewrite <- !app_assoc. simpl.
  by destruct (ParseFromString w (content response)).
Qed.

Definition in_service (route vehicle_id : string) (p : Position) : FeedEntity :=
  {| trip_update := None;
     vehicle := Some {| vp_route_id := route; vp_vehicle_id := vehicle_id;
                        vp_position := p |} |}.

Definition here : Position := {| latitude := 1112834048; longitude := 3234402304 |}.
Definition there : Position := {| latitude := 1112850432; longitude := 3234418688 |}.

Definition one_vehicle : FeedMessage :=
  {| entity := [ in_service "R145" "V1" here ] |}.

Definition unavailable : Response :=
  {| status_code := 503; content := [Byte.x0a; Byte.x00] |}.

Definition data : PublicTransportData :=
  {| _trip_update_url := "https://feed/trips";
     _route_deps := [main_st_145];
     _vehicle_position_url := "https://feed/vehicles";
     _set_limit := 30;
     _headers := Some "key" |}.

(** C2, as the claim states it, fails: the transport answers 503, the
    body is handed to the decoder all the same, and the positions decoded
    from it are returned with no error. *)
Lemma get_vehicle_positions_decodes_error_response :
  exists positions st,
    _get_vehicle_positions (world_at (june_30 12 0) unavailable one_vehicle)
      data start = (Returned positions, st) /\
    positions !! "V1" = Some here /\
    trace st = [ HttpGet "https://feed/vehicles" (Some "key") 60;
                 LogError "Updating vehicle positions got {response.status_code}:{response.content}";
                 Decode [Byte.x0a; Byte.x00] ].
Proof. eexists _, _. vm_compute. repeat split. Qed.

(** C2 (amended). A fetch, of vehicle positions or of trip updates,
    whose response has a status other than 200 logs one error record and
    then decodes the body as for a success: the result is what the code
    builds from the decoded feed, or the exception of the decoder. *)
Theorem fetch_error_is_logged_then_decoded w self response :
  status_code response <> 200 ->
  (forall s,
     requests_get w (_vehicle_position_url self) (_headers self)
     = Returned response ->
     _get_vehicle_positions w self s
     = (decoded positions_of (ParseFromString w (content response)),
        {| ticks := ticks s;
           trace := trace s ++ failed_fetch (_vehicle_position_url self)
                      (_headers self) 60
                      "Updating vehicle positions got {response.status_code}:{response.content}"
                      (content response) |}))
  /\
  (forall vehicle_positions s next_times s1,
     get_times w (_route_deps self) (_set_limit self) s
     = (Returned next_times, s1) ->
     requests_get w (_trip_update_url self) (_headers self)
     = Returned response ->
     _update_route_statuses w self vehicle_positions s
     = (decoded (fun feed => route_statuses vehicle_positions feed next_times)
          (ParseFromString w (content response)),
        {| ticks := ticks s1;
           trace := trace s1 ++ failed_fetch (_trip_update_url self)
                      (_headers self) 30
                      "Updating route status got  {response.status_code}:{response.content}"
                      (content response) |})).
Proof.
  intros Hstatus. split.
  - intros s Hget. unfold _get_vehicle_positions.
    by apply fetch_not_200.
  - intros vehicle_positions s next_times s1 Htimes Hget.
    unfold _update_route_statuses.
    rewrite (bind_run _ _ _ _ _ Htimes).
    by apply (fetch_not_200 w _ _ 30 _ response
                (fun feed => route_statuses vehicle_positions feed next_times)).
Qed.

Lemma fetch_error_is_logged_then_decoded_witness :
  _get_vehicle_positions (world_at (june_30 12 0) unavailable one_vehicle)
    data start
  = (Returned (positions_of one_vehicle),
     {| ticks := 0;
        trace := failed_fetch "https://feed/vehicles" (Some "key") 60
                   "Updating vehicle positions got {response.status_code}:{response.content}"
                   [Byte.x0a; Byte.x00] |}) /\
  _update_route_statuses (world_at (june_30 12 0) unavailable one_vehicle)
    data ∅ start
  = (Returned (route_statuses ∅ one_vehicle [d1; d2; d3]),
     {| ticks := 10;
        trace := failed_fetch "https://feed/trips" (Some "key") 30
                   "Updating route status got  {response.status_code}:{response.content}"
                   [Byte.x0a; Byte.x00] |}).
Proof.
  destruct (fetch_error_is_logged_then_decoded
              (world_at (june_30 12 0) unavailable one_vehicle)
              data unavailable ltac:(vm_compute; discriminate))
    as [Hvehicles Htrips].
  split.
  - apply Hvehicles. reflexivity.
  - apply (Htrips ∅ start [d1; d2; d3] {| ticks := 10; trace := [] |}).
    + vm_compute. reflexivity.
    + reflexivity.
Defined.

(** *** Vehicle positions *)

Lemma positions_of_snoc entities e :
  positions_of {| entity := entities ++ [e] |}
  = if String.eqb (vp_route_id (entity_vehicle e)) ""
    then positions_of {| entity := entities |}
    else <[vp_vehicle_id (entity_vehicle e) := vp_position (entity_vehicle e)]>
           (positions_of {| entity := entities |}).
Proof. unfold positions_of. simpl. by rewrite foldl_snoc. Qed.

(** An entity in service is not overwritten by the entities after it
    that are out of service or belong to other vehicles. *)
Lemma positions_of_last before e after :
  vp_route_id (entity_vehicle e) <> "" ->
  Forall (fun e' => vp_route_id (entity_vehicle e') <> "" ->
                    vp_vehicle_id (entity_vehicle e')
                    <> vp_vehicle_id (entity_vehicle e)) after ->
  positions_of {| entity := before ++ e :: after |}
    !! vp_vehicle_id (entity_vehicle e)
  = Some (vp_position (entity_vehicle e)).
Proof.
  intros Hin. induction after as [|e' after IH] using rev_ind; intros Hafter.
  - rewrite positions_of_snoc.
    apply String.eqb_neq in Hin. rewrite Hin. apply lookup_insert_eq.
  - apply Forall_app in Hafter as [Hafter He'].
    apply Forall_cons in He' as [He' _].
    replace (before ++ e :: after ++ [e'])%list
      with ((before ++ e :: after) ++ [e'])%list by by rewrite <- app_assoc.
    rewrite positions_of_snoc.
    destruct (String.eqb_spec (vp_route_id (entity_vehicle e')) "") as [|Hin'].
    + by apply IH.
    + rewrite lookup_insert_ne by by apply He'. by apply IH.
Qed.

(** Two entities for vehicle V1, then one out of service for it. *)
Definition same_vehicle_twice : FeedMessage :=
  {| entity := [ in_service "R145" "V1" here; in_service "R145" "V1" there;
                 in_service "" "V1" here ] |}.

(** C10. When several in-service entities of the vehicle-position feed
    carry one vehicle identifier, the mapping returned holds that
    identifier once, bound to the position of the last of them in feed
    order. *)
Theorem get_vehicle_positions_last_wins w self s response feed before e after :
  requests_get w (_vehicle_position_url self) (_headers self)
  = Returned response ->
  ParseFromString w (content response) = Returned feed ->
  entity feed = (before ++ e :: after)%list ->
  vp_route_id (entity_vehicle e) <> "" ->
  Forall (fun e' => vp_route_id (entity_vehicle e') <> "" ->
                    vp_vehicle_id (entity_vehicle e')
                    <> vp_vehicle_id (entity_vehicle e)) after ->
  exists positions s',
    _get_vehicle_positions w self s = (Returned positions, s') /\
    positions !! vp_vehicle_id (entity_vehicle e)
    = Some (vp_position (entity_vehicle e)) /\
    (vp_vehicle_id (entity_vehicle e), vp_position (entity_vehicle e))
      ∈ map_to_list positions /\
    NoDup (map_to_list positions).*1.
Proof.
  intros Hget Hparse Hfeed Hin Hafter.
  assert (positions_of feed !! vp_vehicle_id (entity_vehicle e)
          = Some (vp_position (entity_vehicle e))) as Hlast.
  { destruct feed as [entities]. simpl in Hfeed. subst entities.
    by apply positions_of_last. }
  exists (positions_of feed).
  unfold _get_vehicle_positions, http_get, parse_feed, bind, emit, lift, ret.
  simpl. rewrite Hget.
  destruct (status_code response =? 200)%Z; simpl; rewrite Hparse;
    (eexists; split; [reflexivity|]);
    (split; [done|split; [by apply elem_of_map_to_list
                         |apply NoDup_fst_map_to_list]]).
Qed.

Lemma get_vehicle_positions_last_wins_witness :
  exists positions s',
    _get_vehicle_positions
      (world_at (june_30 12 0) ok_empty same_vehicle_twice) data start
    = (Returned positions, s') /\
    positions !! "V1" = Some there /\
    ("V1", there) ∈ map_to_list positions /\
    NoDup (map_to_list positions).*1.
Proof.
  apply (get_vehicle_positions_last_wins
           (world_at (june_30 12 0) ok_empty same_vehicle_twice) data start
           ok_empty same_vehicle_twice
           [in_service "R145" "V1" here] (in_service "R145" "V1" there)
           [in_service "" "V1" here]).
  - reflexivity.
  - reflexivity.
  - reflexivity.
  - simpl. discriminate.
  - repeat constructor. simpl. intros H. by destruct H.
Defined.

End RealtimeFeedReader.

(** * Further properties of the code *)

(** ** Printing and reading times *)

Module ClockFacts.
Import Py Clock Sensor.

Local Arguments digit_char : simpl never.
Local Arguments digit_value !c /.

Lemma digit_value_char d : digit_value (digit_char d) = Some (d mod 10).
Proof.
  unfold digit_char.
  assert (0 <= d mod 10 < 10) as Hd by (apply Z.mod_pos_bound; lia).
  assert (d mod 10 = 0 \/ d mod 10 = 1 \/ d mod 10 = 2 \/ d mod 10 = 3 \/
          d mod 10 = 4 \/ d mod 10 = 5 \/ d mod 10 = 6 \/ d mod 10 = 7 \/
          d mod 10 = 8 \/ d mod 10 = 9) as Hc by lia.
  destruct Hc as [->|[->|[->|[->|[->|[->|[->|[->|[->| ->]]]]]]]]];
    reflexivity.
Qed.

(** Name the characters that [strftime] prints, keeping only that each
    is a digit. *)
Ltac name_digits :=
  repeat match goal with
    | |- context [digit_char ?d] =>
        let c := fresh "c" in
        let Hc := fresh "Hc" in
        pose proof (digit_value_char d) as Hc;
        generalize dependent (d mod 10); intros ? Hc;
        generalize dependent (digit_char d); intros c Hc
    end.

(** Run [strptime_fields] on a text made of named digits. *)
Ltac parse_digits :=
  repeat (first
    [ reflexivity
    | match goal with
      | H : digit_value ?c = _ |- context [digit_value ?c] => rewrite H
      end
    | match goal with
      | |- context [if ?b then _ else _] => destruct b
      end
    | progress cbn ]).

(** A text printed without the fraction does not match the format that
    asks for one. *)
Lemma strptime_without_fraction t :
  strptime (strftime t "%Y-%m-%d %H:%M:%S") date_format = Raised ValueError.
Proof.
  simpl. cbv [String.append]. name_digits.
  unfold strptime, date_format.
  match goal with
  | |- match ?f with _ => _ end = _ => assert (f = None) as ->; [|done]
  end.
  parse_digits.
Qed.

(** The fields of a clock reading that make a time of day. *)
Definition valid_time (t : datetime) : Prop :=
  0 <= hour t < 24 /\ 0 <= minute t < 60 /\ 0 <= second t < 60 /\
  0 <= microsecond t < 1000000.

(** What [strptime] reads back from [strftime(pattern1)]. *)
Definition time_of_day (t : datetime) : struct_time :=
  {| tm_year := 1970; tm_mon := 1; tm_mday := 1;
     tm_hour := hour t; tm_min := minute t; tm_sec := second t |}.

Definition seconds_of_day (t : datetime) : Z :=
  hour t * 3600 + minute t * 60 + second t.

Ltac div_mod_lia := Z.div_mod_to_equations; lia.

Lemma strptime_time_of_day t :
  valid_time t ->
  strptime (strftime t pattern1) pattern = Returned (time_of_day t).
Proof.
  intros (Hh & Hm & Hs & Hu).
  unfold strptime, pattern, pattern1.
  match goal with
  | |- match ?f with _ => _ end = _ =>
      assert (f = Some (time_of_day t)) as ->; [|reflexivity]
  end.
  cbn. cbv [String.append]. cbn.
  repeat (first
    [ rewrite digit_value_char
    | match goal with
      | |- context [if ?b then _ else _] =>
          let E := fresh "E" in
          destruct b eqn:E;
          [|exfalso; clear -E Hh Hm Hs Hu;
            repeat (apply andb_false_iff in E as [E|E]);
            first [discriminate E | apply Z.leb_gt in E; div_mod_lia]]
      end
    | progress cbn ]).
  unfold time_of_day. f_equal. f_equal; first [reflexivity | div_mod_lia].
Qed.

Lemma mktime_time_of_day utcoffset t :
  mktime utcoffset (time_of_day t) = seconds_of_day t - utcoffset.
Proof.
  unfold mktime, time_of_day, seconds_of_day. simpl.
  change (days_from_civil 1970 1 1) with 0. lia.
Qed.

Lemma mktime_utcoffset utcoffset tm :
  mktime utcoffset tm = mktime 0 tm - utcoffset.
Proof. unfold mktime. lia. Qed.

End ClockFacts.

(** ** [validate_service] *)

Module CalendarFacts.
Import Py Clock Db Feed Run Sensor RunFacts Sample ClockFacts.

Local Arguments strftime : simpl never.
Local Arguments strptime : simpl never.
Local Arguments str_datetime : simpl never.
Local Arguments mktime : simpl never.
Local Arguments weekday : simpl never.
Local Arguments select_calendar_date : simpl never.
Local Arguments py_index : simpl never.
Local Arguments epoch_of : simpl never.

(** The weekday flags of a calendar row, Monday first. *)
Definition weekday_flags (r : calendar_row) : list Z :=
  [ c_monday r; c_tuesday r; c_wednesday r; c_thursday r;
    c_friday r; c_saturday r; c_sunday r ].

Lemma weekday_range t : 0 <= weekday t < 7.
Proof. unfold weekday. apply Z.mod_pos_bound. lia. Qed.

Lemma flag_test z :
  match SqlInt z with SqlInt 1 => true | _ => false end = bool_decide (z = 1).
Proof. by destruct z as [|[p|p|]|p]. Qed.

(** Columns 2 to 8 of the row are the weekday flags. *)
Lemma py_index_weekday r wd s :
  0 <= wd < 7 ->
  exists z, weekday_flags r !! Z.to_nat wd = Some z /\
            py_index (calendar_columns r) (wd + 2) s = (Returned (SqlInt z), s).
Proof.
  intros Hwd.
  assert (wd = 0 \/ wd = 1 \/ wd = 2 \/ wd = 3 \/ wd = 4 \/ wd = 5 \/ wd = 6)
    as Hcases by lia.
  destruct Hcases as [->|[->|[->|[->|[->|[->| ->]]]]]]; eexists; split; reflexivity.
Qed.

Lemma now_run w s t s1 :
  now w s = (Returned t, s1) ->
  t = clock w (ticks s) /\ s1 = {| ticks := S (ticks s); trace := trace s |}.
Proof. unfold now. by intros [= <- <-]. Qed.

Lemma epoch_of_returned w v fmt s z s1 :
  epoch_of w v fmt s = (Returned z, s1) ->
  s1 = s /\ exists text tm, v = SqlText text /\ strptime text fmt = Returned tm
                          /\ z = mktime (utcoffset w) tm.
Proof.
  destruct v as [n|text]; [done|].
  intros (-> & tm & Htm & ->)%GetTimesFacts.epoch_of_text. eauto 6.
Qed.




(** X2. When the validator answers true, the service has a calendar
    row whose flag for the weekday is 1, the three texts parsed, the
    instant is in the range, and there is no exception row for the
    date: any row of [calendar_dates] for the service and the date,
    whatever its kind, makes the service inactive. *)
Theorem validate_service_true w service_id s s' :
  validate_service w service_id s = (Returned true, s') ->
  exists r tm tm1 tm2,
    select_calendar (gtfs_db w) service_id = Some (calendar_columns r) /\
    weekday_flags r !! Z.to_nat (weekday (clock w (ticks s))) = Some 1 /\
    strptime (str_datetime (clock w (S (ticks s)))) date_format = Returned tm /\
    strptime (c_start_date r) pattern2 = Returned tm1 /\
    strptime (c_end_date r) pattern2 = Returned tm2 /\
    mktime (utcoffset w) tm1 <= mktime (utcoffset w) tm
      <= mktime (utcoffset w) tm2 /\
    select_calendar_date (gtfs_db w) service_id
      (strftime (clock w (S (ticks s))) pattern2) = None /\
    s' = {| ticks := S (S (ticks s)); trace := trace s |}.
Proof.
  unfold validate_service. intros H.
  apply bind_returned in H as (t1 & s1 & [-> ->]%now_run & H).
  apply bind_returned in H as (cols & s2 & Hcols & H).
  unfold select_calendar in Hcols.
  destruct (List.find _ _) as [r|] eqn:Hfind; simpl in Hcols; [|done].
  apply ret_returned in Hcols as [-> ->].
  apply bind_returned in H as (flag & s3 & Hflag & H).
  destruct (py_index_weekday r (weekday (clock w (ticks s)))
              {| ticks := S (ticks s); trace := trace s |} (weekday_range _))
    as (z & Hz & Hidx).
  rewrite Hidx in Hflag. injection Hflag as <- <-.
  apply bind_returned in H as (t2 & s4 & [-> ->]%now_run & H). simpl in H.
  apply bind_returned in H
    as (d_t & s5 & (-> & text & tm & [= <-] & Htm & ->)%epoch_of_returned & H).
  apply bind_returned in H as (from_date & s6 & [= <- <-] & H).
  apply bind_returned in H as (to_date & s7 & [= <- <-] & H).
  apply bind_returned in H
    as (dt1 & s8 & (-> & text1 & tm1 & [= <-] & Htm1 & ->)%epoch_of_returned & H).
  apply bind_returned in H
    as (dt2 & s9 & (-> & text2 & tm2 & [= <-] & Htm2 & ->)%epoch_of_returned & H).
  assert (match z with 1 => true | _ => false end = bool_decide (z = 1))
    as Hflag by by destruct z as [|[p|p|]|p].
  rewrite Hflag in H. clear Hflag.
  case_bool_decide as Hz1; simpl in H; [subst z|done].
  destruct (Z.leb_spec (mktime (utcoffset w) tm1) (mktime (utcoffset w) tm));
    simpl in H; [|done].
  destruct (Z.leb_spec (mktime (utcoffset w) tm) (mktime (utcoffset w) tm2));
    simpl in H; [|done].
  destruct (select_calendar_date _ _ _) eqn:Hexc; [done|].
  apply ret_returned in H as [_ ->].
  exists r, tm, tm1, tm2. unfold select_calendar. rewrite Hfind. simpl.
  repeat split; done.
Qed.

Lemma validate_service_true_witness :
  exists r tm tm1 tm2,
    select_calendar (gtfs_db at_noon) "YEAR" = Some (calendar_columns r) /\
    weekday_flags r !! Z.to_nat (weekday (clock at_noon (ticks start)))
    = Some 1 /\
    strptime (str_datetime (clock at_noon (S (ticks start)))) date_format
    = Returned tm /\
    strptime (c_start_date r) pattern2 = Returned tm1 /\
    strptime (c_end_date r) pattern2 = Returned tm2 /\
    mktime (utcoffset at_noon) tm1 <= mktime (utcoffset at_noon) tm
      <= mktime (utcoffset at_noon) tm2 /\
    select_calendar_date (gtfs_db at_noon) "YEAR"
      (strftime (clock at_noon (S (ticks start))) pattern2) = None /\
    {| ticks := 2; trace := [] |}
    = {| ticks := S (S (ticks start)); trace := trace start |}.
Proof.
  apply (validate_service_true at_noon "YEAR" start
           {| ticks := 2; trace := [] |}).
  vm_compute. reflexivity.
Defined.

(** *** A reading of the clock on a whole second *)

(** X3. [str(today_date)] prints no fraction when the microsecond of
    the reading is 0, and [date_format] asks for one: for a service that
    has a calendar row, the validator then raises [ValueError]. *)
Theorem validate_service_whole_second w service_id s r :
  select_calendar (gtfs_db w) service_id = Some (calendar_columns r) ->
  microsecond (clock w (S (ticks s))) = 0 ->
  validate_service w service_id s
  = (Raised ValueError, {| ticks := S (S (ticks s)); trace := trace s |}).
Proof.
  intros Hrow Hmicro.
  destruct (py_index_weekday r (weekday (clock w (ticks s)))
              {| ticks := S (ticks s); trace := trace s |} (weekday_range _))
    as (z & Hz & Hidx).
  unfold validate_service.
  erewrite bind_run by reflexivity. cbv beta zeta.
  rewrite Hrow.
  erewrite bind_run by reflexivity. cbv beta.
  erewrite bind_run by exact Hidx. cbv beta.
  erewrite bind_run by reflexivity. cbv beta zeta.
  apply bind_raised. unfold epoch_of. apply bind_raised.
  unfold lift, str_datetime. cbn [ticks trace]. rewrite Hmicro.
  change (0 =? 0) with true. cbv iota.
  by rewrite strptime_without_fraction.
Qed.

(** 2024-06-30 at 12:00:00 sharp. *)
Definition noon_sharp : datetime :=
  {| year := 2024; month := 6; day := 30;
     hour := 12; minute := 0; second := 0; microsecond := 0 |}.

Lemma validate_service_whole_second_witness :
  validate_service (world_at noon_sharp ok_empty no_entities) "YEAR" start
  = (Raised ValueError, {| ticks := 2; trace := [] |}).
Proof.
  apply (validate_service_whole_second
           (world_at noon_sharp ok_empty no_entities) "YEAR" start
           (every_day "YEAR" "2024-01-01" "2024-12-31")); reflexivity.
Defined.

End CalendarFacts.

(** ** [get_times] *)

Module FinderFacts.
Import Py Clock Db Feed Run Sensor RunFacts PyFacts GetTimesFacts Sample
       ClockFacts.

Local Arguments epoch_of : simpl never.
Local Arguments strftime : simpl never.
Local Arguments strptime : simpl never.
Local Arguments validate_service : simpl never.
Local Arguments py_index : simpl never.

(** X4. When every reading of the clock is a time of day, the minutes
    of a returned departure are the whole minutes from the time of day
    of one reading to the stored departure time, both counted in seconds
    from 1970-01-01 00:00: the date of the reading and the offset of the
    time zone play no part. *)
Theorem get_times_minutes_of_day w route_stops set_limit s out s' :
  (forall n, valid_time (clock w n)) ->
  get_times w route_stops set_limit s = (Returned out, s') ->
  Forall (fun d =>
            exists (n : nat) (tm_dep : struct_time),
              strptime (dep_time_str d) pattern = Returned tm_dep /\
              seconds_of_day (clock w n) <= mktime 0 tm_dep /\
              dep_minutes d
              = int_truediv (mktime 0 tm_dep - seconds_of_day (clock w n)) 60)
         out.
Proof.
  intros Hclock (all & Hall & ->)%get_times_returned.
  apply selectors_loop_not_past in Hall; [|constructor].
  apply slice_to_Forall. rewrite sorted_perm.
  eapply Forall_impl; [exact Hall|].
  intros d (n & tm_dep & tm_now & Hdep & Hnow & Hle & Hmin).
  rewrite strptime_time_of_day in Hnow by apply Hclock.
  injection Hnow as <-.
  rewrite mktime_time_of_day, (mktime_utcoffset (utcoffset w) tm_dep) in Hle, Hmin.
  exists n, tm_dep. split; [done|]. split; [lia|].
  rewrite Hmin. f_equal. lia.
Qed.

Lemma get_times_minutes_of_day_witness :
  Forall (fun d =>
            exists (n : nat) (tm_dep : struct_time),
              strptime (dep_time_str d) pattern = Returned tm_dep /\
              seconds_of_day (clock at_noon n) <= mktime 0 tm_dep /\
              dep_minutes d
              = int_truediv (mktime 0 tm_dep - seconds_of_day (clock at_noon n))
                  60)
         [d1; d2; d3].
Proof.
  apply (get_times_minutes_of_day at_noon [main_st_145] 30 start
           [d1; d2; d3] {| ticks := 10; trace := [] |}).
  - intros n. unfold valid_time. simpl. lia.
  - vm_compute. reflexivity.
Defined.

(** *** Where a departure comes from *)

Section Provenance.
Variable w : World.

(** What [trip_step] adds, if anything. *)
Lemma trip_step_added stop route stop_id stop_times row s out s' :
  trip_step w stop route stop_id stop_times row s = (Returned out, s') ->
  out = stop_times \/
  exists arr dep sid minutes s1 s2,
    select_stop_time (gtfs_db w) row.1 stop_id = Some (arr, dep, sid) /\
    validate_service w row.2 s1 = (Returned true, s2) /\
    out = stop_times ++
          [ {| dep_stop_name := stop; dep_route := route; dep_trip := row.1;
               dep_minutes := minutes; dep_time_str := dep |} ].
Proof.
  unfold trip_step. destruct row as [trip_id service_id].
  destruct (select_stop_time _ _ _) as [[[arr dep] sid]|] eqn:Hst; simpl;
    [|intros [-> _]%ret_returned; by left].
  intros H.
  apply bind_returned in H as (epoch_dep & s1 & _ & H).
  apply bind_returned in H as (now_dt & s2 & _ & H).
  apply bind_returned in H as (epoch_now & s3 & _ & H).
  destruct (epoch_now <=? epoch_dep);
    [|apply ret_returned in H as [-> _]; by left].
  apply bind_returned in H as (valid & s4 & Hvalid & H).
  destruct valid; apply ret_returned in H as [-> _]; [|by left].
  right. by exists arr, dep, sid, (int_truediv (epoch_dep - epoch_now) 60), s3, s4.
Qed.

Lemma trips_loop_added (Q : Departure -> Prop) stop route stop_id rows :
  (forall row arr dep sid minutes s1 s2,
     row ∈ rows ->
     select_stop_time (gtfs_db w) row.1 stop_id = Some (arr, dep, sid) ->
     validate_service w row.2 s1 = (Returned true, s2) ->
     Q {| dep_stop_name := stop; dep_route := route; dep_trip := row.1;
          dep_minutes := minutes; dep_time_str := dep |}) ->
  forall stop_times s out s',
    Forall Q stop_times ->
    trips_loop w stop route stop_id rows stop_times s = (Returned out, s') ->
    Forall Q out.
Proof.
  induction rows as [|row rows IH]; intros HQ stop_times s out s' Hall H.
  - by apply ret_returned in H as [-> _].
  - simpl in H. apply bind_returned in H as (mid & s1 & Hstep & H).
    eapply IH; [| |exact H].
    + intros row' ? ? ? ? ? ? Hin. apply HQ. by right.
    + apply trip_step_added in Hstep
        as [->|(arr & dep & sid & minutes & s2 & s3 & Hst & Hvalid & ->)];
        [done|].
      apply Forall_app. split; [done|]. constructor; [|constructor].
      eapply HQ; [by left|done..].
Qed.

(** The departure is of a selector of the list, at the stop and on the
    route the selector resolves to, for a trip of that route whose row in
    [stop_times] gives the departure time, and whose service the
    validator accepted. *)
Definition from_schedule (route_stops : list (string * string * string))
    (d : Departure) : Prop :=
  exists operator stop_row route_row service arr sid,
    (dep_stop_name d, dep_route d, operator) ∈ route_stops /\
    select_stop (gtfs_db w) (dep_stop_name d) = Some stop_row /\
    select_route (gtfs_db w) (dep_route d) operator = Some route_row /\
    (dep_trip d, service) ∈ select_trips (gtfs_db w) route_row.2 /\
    select_stop_time (gtfs_db w) (dep_trip d) stop_row.1
    = Some (arr, dep_time_str d, sid) /\
    exists s1 s2, validate_service w service s1 = (Returned true, s2).

Lemma selector_step_from_schedule route_stops stop_times r_s s out s' :
  r_s ∈ route_stops ->
  Forall (from_schedule route_stops) stop_times ->
  selector_step w stop_times r_s s = (Returned out, s') ->
  Forall (from_schedule route_stops) out.
Proof.
  intros Hin Hall. unfold selector_step.
  destruct r_s as [[stop route] operator].
  destruct (select_stop _ _) as [stop_row|] eqn:Hstop; simpl; [|done].
  destruct (select_route _ _ _) as [route_row|] eqn:Hroute; simpl; [|done].
  intros H. run_steps.
  eapply trips_loop_added; [|exact Hall|exact H].
  intros [trip service] arr dep sid minutes s1 s2 Hrow Hst Hvalid.
  exists operator, stop_row, route_row, service, arr, sid. simpl.
  repeat split; eauto.
Qed.

Lemma selectors_loop_from_schedule route_stops rest :
  (forall r_s, r_s ∈ rest -> r_s ∈ route_stops) ->
  forall stop_times s out s',
    Forall (from_schedule route_stops) stop_times ->
    selectors_loop w rest stop_times s = (Returned out, s') ->
    Forall (from_schedule route_stops) out.
Proof.
  induction rest as [|r_s rest IH]; intros Hsub stop_times s out s' Hall H.
  - by apply ret_returned in H as [-> _].
  - simpl in H. apply bind_returned in H as (mid & s1 & Hstep & H).
    eapply IH; [| |exact H].
    + intros r_s' Hin. apply Hsub. by right.
    + eapply selector_step_from_schedule; [|exact Hall|exact Hstep].
      apply Hsub. by left.
Qed.

End Provenance.

(** X5. Every departure returned by [get_times] comes from the
    schedule: its stop name and route are those of a selector of the
    list, which resolves to a stop and a route; its trip is a trip of
    that route; its departure text is the one stored for the trip at the
    stop; and the validator accepted the service of the trip. *)
Theorem get_times_from_schedule w route_stops set_limit s out s' :
  get_times w route_stops set_limit s = (Returned out, s') ->
  Forall (from_schedule w route_stops) out.
Proof.
  intros (all & Hall & ->)%get_times_returned.
  apply slice_to_Forall. rewrite sorted_perm.
  eapply selectors_loop_from_schedule; [|constructor|exact Hall]. done.
Qed.

Lemma get_times_from_schedule_witness :
  Forall (from_schedule at_noon [main_st_145]) [d1; d2; d3].
Proof.
  apply (get_times_from_schedule at_noon [main_st_145] 30 start
           [d1; d2; d3] {| ticks := 10; trace := [] |}).
  vm_compute. reflexivity.
Defined.

(** *** What [get_times] leaves alone *)

(** A computation that adds no event to the trace, whatever its
    outcome, and never turns the clock back. *)
Definition quiet {A} (m : M A) : Prop :=
  forall s, trace (m s).2 = trace s /\ (ticks s <= ticks (m s).2)%nat.

Lemma quiet_ret {A} (a : A) : quiet (ret a).
Proof. by intros s. Qed.

Lemma quiet_raise {A} e : quiet (@raise A e).
Proof. by intros s. Qed.

Lemma quiet_lift {A} (o : outcome A) : quiet (lift o).
Proof. by intros s. Qed.

Lemma quiet_now w : quiet (now w).
Proof. intros s. simpl. split; [done|lia]. Qed.

Lemma quiet_bind {A B} (m : M A) (k : A -> M B) :
  quiet m -> (forall a, quiet (k a)) -> quiet (bind m k).
Proof.
  intros Hm Hk s. unfold bind. specialize (Hm s).
  destruct (m s) as [[a|e] s1]; simpl in *; [|done].
  destruct Hm as [Hm_trace Hm_ticks].
  destruct (Hk a s1) as [Htrace Hticks]. split; [congruence|lia].
Qed.

(** Take a computation apart along its binds and tests. *)
Ltac quiet_steps :=
  repeat (cbv zeta;
          first [ apply quiet_ret | apply quiet_raise | apply quiet_lift
                | apply quiet_now
                | apply quiet_bind; [|intros ?]
                | match goal with
                  | |- quiet (if ?b then _ else _) => destruct b
                  | |- quiet (match ?x with _ => _ end) => destruct x
                  end ]).

Lemma quiet_py_list {A} (row : option (list A)) : quiet (py_list row).
Proof. unfold py_list. quiet_steps. Qed.

Lemma quiet_py_index {A} (l : list A) i : quiet (py_index l i).
Proof. unfold py_index. quiet_steps. Qed.

Lemma quiet_epoch_of w v fmt : quiet (epoch_of w v fmt).
Proof. unfold epoch_of. quiet_steps. Qed.

Lemma quiet_validate_service w service_id : quiet (validate_service w service_id).
Proof.
  unfold validate_service.
  repeat (cbv zeta;
          first [ apply quiet_py_list | apply quiet_py_index
                | apply quiet_epoch_of | apply quiet_now
                | apply quiet_bind; [|intros ?] ]).
  quiet_steps.
Qed.

Lemma quiet_trip_step w stop route stop_id stop_times row :
  quiet (trip_step w stop route stop_id stop_times row).
Proof.
  unfold trip_step. destruct row as [trip_id service_id].
  destruct (select_stop_time _ _ _) as [departure|]; [|apply quiet_ret].
  cbv zeta.
  apply quiet_bind; [apply quiet_epoch_of|intros epoch_dep].
  apply quiet_bind; [apply quiet_now|intros now_dt].
  apply quiet_bind; [apply quiet_epoch_of|intros epoch_now].
  destruct (epoch_now <=? epoch_dep); [|apply quiet_ret].
  apply quiet_bind; [apply quiet_validate_service|intros valid].
  destruct valid; apply quiet_ret.
Qed.

Lemma quiet_trips_loop w stop route stop_id rows :
  forall stop_times, quiet (trips_loop w stop route stop_id rows stop_times).
Proof.
  induction rows as [|row rows IH]; intros stop_times; simpl.
  - apply quiet_ret.
  - apply quiet_bind; [apply quiet_trip_step|]. intros a. apply IH.
Qed.

Lemma quiet_selector_step w stop_times r_s :
  quiet (selector_step w stop_times r_s).
Proof.
  unfold selector_step. destruct r_s as [[stop route] operator].
  destruct (select_stop _ _) as [stop_row|];
    destruct (select_route _ _ _) as [route_row|]; cbv zeta;
    repeat first [ apply quiet_trips_loop | apply quiet_ret | apply quiet_raise
                 | apply quiet_bind; [|intros ?] ].
Qed.

Lemma quiet_selectors_loop w route_stops :
  forall stop_times, quiet (selectors_loop w route_stops stop_times).
Proof.
  induction route_stops as [|r_s rest IH]; intros stop_times; simpl.
  - apply quiet_ret.
  - apply quiet_bind; [apply quiet_selector_step|]. intros a. apply IH.
Qed.

Lemma quiet_get_times w route_stops set_limit :
  quiet (get_times w route_stops set_limit).
Proof.
  unfold get_times. apply quiet_bind; [apply quiet_selectors_loop|].
  intros all. apply quiet_ret.
Qed.

(** X6. Whether it returns or raises, [get_times] sends no request,
    logs nothing and decodes nothing: the trace of events is as it
    was, and the only effect is that the clock has been read. *)
Theorem get_times_quiet w route_stops set_limit s :
  trace (get_times w route_stops set_limit s).2 = trace s /\
  (ticks s <= ticks (get_times w route_stops set_limit s).2)%nat.
Proof. apply quiet_get_times. Qed.

(** X20. A trip whose stored departure lies before the time of day of
    the clock is passed over after one reading of the clock: the list is
    unchanged and the validator is not consulted, so that the calendar of
    such a trip is never looked at. *)
Theorem trip_step_past w stop route stop_id stop_times trip service s
    arr dep sid tm_dep :
  select_stop_time (gtfs_db w) trip stop_id = Some (arr, dep, sid) ->
  strptime dep pattern = Returned tm_dep ->
  valid_time (clock w (ticks s)) ->
  mktime 0 tm_dep < seconds_of_day (clock w (ticks s)) ->
  trip_step w stop route stop_id stop_times (trip, service) s
  = (Returned stop_times, {| ticks := S (ticks s); trace := trace s |}).
Proof.
  intros Hst Hdep Hvalid Hpast.
  unfold trip_step. rewrite Hst. cbv zeta. cbn [fst snd].
  assert (forall text tm s0,
            strptime text pattern = Returned tm ->
            epoch_of w (SqlText text) pattern s0
            = (Returned (mktime (utcoffset w) tm), s0)) as Hepoch.
  { intros text tm s0 Htm. unfold epoch_of, bind, lift, ret. by rewrite Htm. }
  rewrite (bind_run _ _ _ _ _ (Hepoch _ _ s Hdep)).
  erewrite bind_run by reflexivity. cbn [ticks trace].
  rewrite (bind_run _ _ _ _ _
             (Hepoch _ _ _ (strptime_time_of_day _ Hvalid))).
  rewrite mktime_time_of_day, (mktime_utcoffset (utcoffset w) tm_dep).
  destruct (Z.leb_spec (seconds_of_day (clock w (ticks s)) - utcoffset w)
                       (mktime 0 tm_dep - utcoffset w)); [lia|done].
Qed.

Lemma trip_step_past_witness :
  trip_step at_noon "Main St" "145" "S1" [] ("T4"%string, "YEAR"%string) start
  = (Returned [], {| ticks := 1; trace := [] |}).
Proof.
  apply (trip_step_past at_noon "Main St" "145" "S1" [] "T4" "YEAR" start
           "1970-01-01 11:10:00.000000" "1970-01-01 11:10:00.000000" "S1"
           {| tm_year := 1970; tm_mon := 1; tm_mday := 1;
              tm_hour := 11; tm_min := 10; tm_sec := 0 |}).
  - reflexivity.
  - vm_compute. reflexivity.
  - unfold valid_time. simpl. lia.
  - vm_compute. reflexivity.
Defined.

End FinderFacts.

(** ** The value stored in [self.info] *)

Module MergeOutput.
Import Py Clock Db Feed Run Sensor PyFacts MergeFacts Sample ArrivalMerger.

(** The groups of the sorted dictionary, read with [arrivals_at]. *)
Lemma arrivals_at_route_statuses vehicle_positions feed next_times route stop :
  arrivals_at (route_statuses vehicle_positions feed next_times) route stop
  = sorted arrival_time
      (details_of vehicle_positions feed
       <$> departures_at next_times route stop).
Proof.
  pose proof (fold_append_details_at vehicle_positions feed next_times
                ∅ route stop) as Hat.
  unfold route_statuses, arrivals_at in *.
  rewrite lookup_empty in Hat. simpl in Hat. rewrite <- Hat.
  rewrite lookup_fmap.
  destruct (foldl _ _ _ !! route) as [by_stop|]; simpl; [|done].
  rewrite lookup_fmap. by destruct (by_stop !! stop).
Qed.

(** No list is stored before its first element is appended. *)
Definition no_empty_group
    (info : gmap string (gmap string (list StopDetails))) : Prop :=
  forall route by_stop stop group,
    info !! route = Some by_stop -> by_stop !! stop = Some group ->
    group <> [].

Lemma append_details_no_empty info route stop details :
  no_empty_group info -> no_empty_group (append_details info route stop details).
Proof.
  intros Hinfo route' by_stop' stop' group. unfold append_details.
  destruct (decide (route = route')) as [<-|Hroute].
  - rewrite lookup_insert_eq. intros [= <-].
    destruct (decide (stop = stop')) as [<-|Hstop].
    + rewrite lookup_insert_eq. intros [= <-]. by intros [_ ?]%app_eq_nil.
    + rewrite lookup_insert_ne by done.
      destruct (info !! route) as [by_stop|] eqn:Hlookup; simpl.
      * by apply (Hinfo route).
      * by rewrite lookup_empty.
  - rewrite lookup_insert_ne by done. apply Hinfo.
Qed.

Lemma route_statuses_no_empty vehicle_positions feed next_times :
  no_empty_group (route_statuses vehicle_positions feed next_times).
Proof.
  unfold route_statuses.
  assert (no_empty_group
            (foldl (fun departure_times arrival_time =>
                      append_details departure_times
                        (dep_route arrival_time) (dep_stop_name arrival_time)
                        (details_of vehicle_positions feed arrival_time))
                   ∅ next_times)) as Hfold.
  { induction next_times as [|d next_times IH] using rev_ind.
    - intros route by_stop stop group. simpl. by rewrite lookup_empty.
    - rewrite foldl_snoc. by apply append_details_no_empty. }
  intros route by_stop stop group. rewrite lookup_fmap.
  intros (by_stop0 & Hroute & ->)%fmap_Some. rewrite lookup_fmap.
  intros (group0 & Hstop & ->)%fmap_Some.
  intros Hnil. apply (Hfold _ _ _ _ Hroute Hstop).
  apply Permutation_nil_r. by rewrite <- (sorted_perm arrival_time), Hnil.
Qed.

(** X7. A group stored for a route and a stop is not empty and holds,
    in some order, exactly the details of the departures of that route
    at that stop: none is made up, none is counted twice. *)
Theorem route_statuses_group_members vehicle_positions feed next_times
    route stop by_stop group :
  route_statuses vehicle_positions feed next_times !! route = Some by_stop ->
  by_stop !! stop = Some group ->
  group <> [] /\
  group ≡ₚ details_of vehicle_positions feed
           <$> departures_at next_times route stop.
Proof.
  intros Hroute Hstop. split.
  - by eapply route_statuses_no_empty.
  - rewrite (route_statuses_group _ _ _ _ _ _ _ Hroute Hstop).
    apply sorted_perm.
Qed.

Lemma route_statuses_group_members_witness :
  [due 10 " 12:10"; due 12 " 12:12"] <> [] /\
  [due 10 " 12:10"; due 12 " 12:12"]
  ≡ₚ details_of ∅ no_entities <$> departures_at [d1; d2] "145" "Main St".
Proof.
  apply (route_statuses_group_members ∅ no_entities [d1; d2] "145" "Main St"
           {["Main St" := [due 10 " 12:10"; due 12 " 12:12"]]}).
  - vm_compute. reflexivity.
  - vm_compute. reflexivity.
Defined.

(** X8. Every departure handed to the merge has its details in the
    group of its route and stop: the merge drops nothing. *)
Theorem route_statuses_keeps_all vehicle_positions feed next_times d :
  d ∈ next_times ->
  exists by_stop group,
    route_statuses vehicle_positions feed next_times !! dep_route d
    = Some by_stop /\
    by_stop !! dep_stop_name d = Some group /\
    details_of vehicle_positions feed d ∈ group.
Proof.
  intros Hd.
  pose proof (arrivals_at_route_statuses vehicle_positions feed next_times
                (dep_route d) (dep_stop_name d)) as Hat.
  assert (details_of vehicle_positions feed d
          ∈ arrivals_at (route_statuses vehicle_positions feed next_times)
              (dep_route d) (dep_stop_name d)) as Hin.
  { rewrite Hat, sorted_perm. apply list_elem_of_fmap_2.
    unfold departures_at. by apply list_elem_of_filter. }
  unfold arrivals_at in Hin.
  destruct (route_statuses _ _ _ !! dep_route d) as [by_stop|];
    simpl in Hin; [|by apply elem_of_nil in Hin].
  destruct (by_stop !! dep_stop_name d) as [group|] eqn:Hstop;
    simpl in Hin; [|by apply elem_of_nil in Hin].
  by exists by_stop, group.
Qed.

Lemma route_statuses_keeps_all_witness :
  exists by_stop group,
    route_statuses ∅ no_entities [d1; d2] !! dep_route d2 = Some by_stop /\
    by_stop !! dep_stop_name d2 = Some group /\
    details_of ∅ no_entities d2 ∈ group.
Proof.
  apply (route_statuses_keeps_all ∅ no_entities [d1; d2] d2).
  apply list_elem_of_In. simpl. auto.
Defined.

(** X9. Arrivals of one group that are due at the same minute stay in
    the order their departures had in [next_times]: the sort of the
    groups is stable. *)
Theorem route_statuses_ties_in_order vehicle_positions feed next_times
    route stop (minute : Z) :
  filter (fun x => arrival_time x = minute)
    (arrivals_at (route_statuses vehicle_positions feed next_times) route stop)
  = filter (fun x => arrival_time x = minute)
      (details_of vehicle_positions feed
       <$> departures_at next_times route stop).
Proof. rewrite arrivals_at_route_statuses. apply sorted_stable. Qed.

(** X10. A departure whose trip is the trip of no trip-update entity
    of the feed keeps its scheduled minutes: no delay is taken from the
    entities of other trips. *)
Theorem details_of_unmentioned_trip vehicle_positions feed d :
  Forall (fun e => forall tu, trip_update e = Some tu ->
                              tu_trip_id tu <> dep_trip d) (entity feed) ->
  arrival_time (details_of vehicle_positions feed d) = dep_minutes d.
Proof.
  intros Hother.
  rewrite details_of_arrival_time, entities_fold_minutes.
  assert (concat (entity_delays (dep_trip d) <$> entity feed) = []) as ->.
  { induction Hother as [|e entities He _ IH]; [done|].
    rewrite fmap_cons. simpl. rewrite IH, app_nil_r.
    unfold entity_delays. destruct (trip_update e) as [tu|]; [|done].
    specialize (He tu eq_refl). apply String.eqb_neq in He. by rewrite He. }
  simpl. lia.
Qed.

Lemma details_of_unmentioned_trip_witness :
  arrival_time (details_of ∅ two_minutes_late d2) = dep_minutes d2.
Proof.
  apply (details_of_unmentioned_trip ∅ two_minutes_late d2).
  repeat constructor. simpl. intros tu [= <-]. discriminate.
Defined.

Lemma details_of_position_last vehicle_positions feed d :
  position (details_of vehicle_positions feed d)
  = default PyZero
      ((fun tu => positions_get vehicle_positions (tu_vehicle_id tu))
       <$> last (omap trip_update (entity feed))).
Proof. by rewrite details_of_position, entities_fold_position, fmap_last. Qed.

(** X12. The position attached to a departure is decided by the last
    entity of the feed that has a trip update: it is what
    [vehicle_positions] holds for the vehicle of that entity, [None]
    when it holds nothing, and the initial [0] exactly when no entity
    has a trip update.  No position is made up. *)
Theorem details_of_position_source vehicle_positions feed d :
  match position (details_of vehicle_positions feed d) with
  | PyZero => omap trip_update (entity feed) = []
  | PyNone =>
      exists tu, last (omap trip_update (entity feed)) = Some tu /\
                 vehicle_positions !! tu_vehicle_id tu = None
  | PyPosition p =>
      exists tu, last (omap trip_update (entity feed)) = Some tu /\
                 vehicle_positions !! tu_vehicle_id tu = Some p
  end.
Proof.
  rewrite details_of_position_last.
  destruct (last (omap trip_update (entity feed))) as [tu|] eqn:Hlast; simpl.
  - unfold positions_get.
    destruct (vehicle_positions !! tu_vehicle_id tu) eqn:Hget; eauto.
  - by apply last_None.
Qed.

End MergeOutput.

(** ** The departure text shown *)

Module DepartureText.
Import Py Clock Db Feed Run Sensor Sample ClockFacts.

Local Arguments digit_char : simpl never.

(** X11. For a departure time stored in the format of [pattern], the
    text kept in [StopDetails.dep_time] is the slice [10:16] of it: a
    space, the two digits of the hour, a colon and the two digits of the
    minute. *)
Theorem details_of_dep_time vehicle_positions feed d t :
  dep_time_str d = strftime t pattern ->
  dep_time (details_of vehicle_positions feed d) = strftime t " %H:%M".
Proof.
  intros Htext. unfold details_of.
  destruct (foldl _ _ _) as [modified_time vehicle_position]. simpl.
  rewrite Htext. unfold pattern.
  cbn. cbv [String.append]. cbn. reflexivity.
Qed.

Lemma details_of_dep_time_witness :
  dep_time (details_of ∅ no_entities d1)
  = strftime {| year := 1970; month := 1; day := 1; hour := 12;
                minute := 10; second := 30; microsecond := 0 |} " %H:%M".
Proof.
  apply (details_of_dep_time ∅ no_entities d1). reflexivity.
Defined.

End DepartureText.

(** ** The two fetches and [update] *)

Module UpdateFacts.
Import Py Clock Db Feed Run Sensor RunFacts PyFacts GetTimesFacts MergeFacts
       Sample ArrivalMerger MergeOutput RealtimeFeedReader FinderFacts.




(** X13. The mapping of vehicle positions holds a vehicle identifier
    exactly when some entity of the feed in service (with a route)
    carries it, bound to the position of such an entity; entities
    without a route, or without a vehicle at all, add nothing. *)
Theorem positions_of_lookup feed v :
  match positions_of feed !! v with
  | Some p =>
      exists e, e ∈ entity feed /\
                vp_route_id (entity_vehicle e) <> ""%string /\
                vp_vehicle_id (entity_vehicle e) = v /\
                vp_position (entity_vehicle e) = p
  | None =>
      forall e, e ∈ entity feed ->
                vp_route_id (entity_vehicle e) <> ""%string ->
                vp_vehicle_id (entity_vehicle e) <> v
  end.
Proof.
  destruct feed as [entities].
  induction entities as [|e entities IH] using rev_ind.
  - unfold positions_of. simpl. rewrite lookup_empty.
    intros e He. by apply elem_of_nil in He.
  - rewrite positions_of_snoc. simpl in *.
    destruct (String.eqb_spec (vp_route_id (entity_vehicle e)) "") as [Hout|Hin].
    + destruct (positions_of {| entity := entities |} !! v) as [p|].
      * destruct IH as (e0 & He0 & ?). exists e0.
        split; [|done]. apply elem_of_app. by left.
      * intros e0 [He0|He0%list_elem_of_singleton]%elem_of_app; [by apply IH|].
        by subst e0.
    + destruct (decide (vp_vehicle_id (entity_vehicle e) = v)) as [<-|Hne].
      * rewrite lookup_insert_eq. exists e.
        split; [|done]. apply elem_of_app. right. by apply list_elem_of_singleton.
      * rewrite lookup_insert_ne by done.
        destruct (positions_of {| entity := entities |} !! v) as [p|].
        -- destruct IH as (e0 & He0 & ?). exists e0.
           split; [|done]. apply elem_of_app. by left.
        -- intros e0 [He0|He0%list_elem_of_singleton]%elem_of_app;
             [by apply IH|]. by subst e0.
Qed.



(** What a successful [_update_route_statuses] stores. *)
Lemma update_route_statuses_returned w self vehicle_positions s info s' :
  _update_route_statuses w self vehicle_positions s = (Returned info, s') ->
  exists next_times s1 feed,
    get_times w (_route_deps self) (_set_limit self) s
    = (Returned next_times, s1) /\
    info = route_statuses vehicle_positions feed next_times.
Proof.
  unfold _update_route_statuses. intros H.
  apply bind_returned in H as (next_times & s1 & Htimes & H).
  apply bind_returned in H as (response & s2 & _ & H).
  apply bind_returned in H as (u & s3 & _ & H).
  apply bind_returned in H as (feed & s4 & _ & H).
  apply ret_returned in H as [-> _]. eauto.
Qed.

(** X15. When the vehicle position address is the empty text, no
    arrival stored by a successful update carries a position: each holds
    [0] or [None]. *)
Theorem update_without_vehicle_url w self s info s' :
  _vehicle_position_url self = ""%string ->
  update w self s = (Returned info, s') ->
  forall route by_stop stop group x,
    info !! route = Some by_stop -> by_stop !! stop = Some group ->
    x ∈ group ->
    position x = PyZero \/ position x = PyNone.
Proof.
  intros Hurl Hupdate route by_stop stop group x Hroute Hstop Hx.
  unfold update in Hupdate. rewrite Hurl in Hupdate. simpl in Hupdate.
  rewrite (bind_run _ _ _ _ _ (eq_refl : ret ∅ s = (Returned ∅, s))) in Hupdate.
  apply update_route_statuses_returned in Hupdate
    as (next_times & s1 & feed & _ & ->).
  rewrite (route_statuses_group _ _ _ _ _ _ _ Hroute Hstop), sorted_perm in Hx.
  apply list_elem_of_fmap in Hx as (d & -> & _).
  rewrite details_of_position_last.
  destruct (last (omap trip_update (entity feed))) as [tu|]; simpl;
    [right|by left].
  unfold positions_get. by rewrite lookup_empty.
Qed.

Definition no_vehicle_url : PublicTransportData :=
  {| _trip_update_url := "https://feed/trips";
     _route_deps := [main_st_145];
     _vehicle_position_url := "";
     _set_limit := 30;
     _headers := Some "key"%string |}.

Definition main_st_group : list StopDetails :=
  [due 10 " 12:10"; due 12 " 12:12"; due 45 " 12:45"].

Definition main_st_info : gmap string (gmap string (list StopDetails)) :=
  {["145"%string := {["Main St"%string := main_st_group]}]}.

Lemma update_without_vehicle_url_witness :
  position (due 10 " 12:10") = PyZero \/ position (due 10 " 12:10") = PyNone.
Proof.
  apply (update_without_vehicle_url
           (world_at (june_30 12 0) ok_empty no_entities) no_vehicle_url start
           main_st_info
           {| ticks := 10;
              trace := [HttpGet "https://feed/trips" (Some "key"%string) 30;
                        Decode []] |})
    with (route := "145"%string) (stop := "Main St"%string)
         (by_stop := {["Main St"%string := main_st_group]})
         (group := main_st_group).
  - reflexivity.
  - vm_compute. reflexivity.
  - vm_compute. reflexivity.
  - vm_compute. reflexivity.
  - apply list_elem_of_In. simpl. auto.
Defined.

End UpdateFacts.

(** ** What the entity shows *)

Module EntityFacts.
Import Py Clock Db Feed Run Sensor RunFacts PyFacts GetTimesFacts MergeFacts
       Sample ArrivalMerger MergeOutput UpdateFacts Entity.

(** The six keys that [extra_state_attributes] always sets. *)
Definition fixed_keys : list string :=
  [ATTR_DUE_IN; ATTR_STOP_NAME; ATTR_ROUTE; ATTR_NEXT_ARRIVAL; ATTR_HITS;
   ATTR_DEP_TIME].

Lemma get_next_buses_arrivals_at info self :
  _get_next_buses info self = arrivals_at info (_route_no self) (_stop_name self).
Proof.
  unfold _get_next_buses, arrivals_at.
  destruct (info !! _route_no self); simpl; [done|]. by rewrite lookup_empty.
Qed.

(** The effective arrival times of the departures of the sensor's route
    at the sensor's stop, in the order of [next_times]. *)
Definition due_times (vehicle_positions : gmap string Position)
    (feed : FeedMessage) (next_times : list Departure)
    (self : PublicTransportSensor) : list Z :=
  arrival_time
  <$> (details_of vehicle_positions feed
       <$> departures_at next_times (_route_no self) (_stop_name self)).

Lemma get_next_buses_route_statuses vehicle_positions feed next_times self :
  _get_next_buses (route_statuses vehicle_positions feed next_times) self
  = sorted arrival_time
      (details_of vehicle_positions feed
       <$> departures_at next_times (_route_no self) (_stop_name self)).
Proof.
  rewrite get_next_buses_arrivals_at. apply arrivals_at_route_statuses.
Qed.

(** X16. With the limit 0, which is the default of
    [PublicTransportData], a successful [_update_route_statuses] stores
    an empty dictionary, and the state of every sensor is the dash. *)
Theorem update_route_statuses_limit_zero w self vehicle_positions s info s' :
  _set_limit self = 0 ->
  _update_route_statuses w self vehicle_positions s = (Returned info, s') ->
  info = ∅ /\ forall sensor, Entity.state info sensor = AttrText "-".
Proof.
  intros Hlimit (next_times & s1 & feed & Htimes & ->)%update_route_statuses_returned.
  rewrite Hlimit in Htimes.
  apply get_times_returned in Htimes as (all & _ & ->).
  assert (route_statuses vehicle_positions feed
            (slice_to (sorted dep_minutes all) 0) = ∅) as ->.
  { unfold route_statuses, slice_to. simpl. by rewrite fmap_empty. }
  split; [done|]. intros sensor.
  unfold Entity.state, _get_next_buses. by rewrite lookup_empty.
Qed.

Definition limit_zero : PublicTransportData :=
  {| _trip_update_url := "https://feed/trips";
     _route_deps := [main_st_145];
     _vehicle_position_url := "https://feed/vehicles";
     _set_limit := 0;
     _headers := None |}.

Lemma update_route_statuses_limit_zero_witness :
  (∅ : gmap string (gmap string (list StopDetails))) = ∅ /\
  forall sensor, Entity.state ∅ sensor = AttrText "-".
Proof.
  apply (update_route_statuses_limit_zero at_noon limit_zero ∅ start ∅
           {| ticks := 10;
              trace := [HttpGet "https://feed/trips" None 30; Decode []] |}).
  - reflexivity.
  - vm_compute. reflexivity.
Defined.

(** X17. After a merge, the state of a sensor is the dash exactly when
    [next_times] has no departure of its route at its stop; otherwise it
    is the smallest effective arrival time of those departures. *)
Theorem state_after_merge vehicle_positions feed next_times self :
  match Entity.state (route_statuses vehicle_positions feed next_times) self with
  | AttrText text =>
      text = "-"%string /\
      due_times vehicle_positions feed next_times self = []
  | AttrInt m =>
      m ∈ due_times vehicle_positions feed next_times self /\
      Forall (Z.le m) (due_times vehicle_positions feed next_times self)
  | AttrCoordinate _ => False
  end.
Proof.
  unfold Entity.state, due_times. rewrite get_next_buses_route_statuses.
  pose proof (sorted_perm arrival_time
                (details_of vehicle_positions feed
                 <$> departures_at next_times (_route_no self)
                       (_stop_name self))) as Hperm.
  pose proof (sorted_sorted arrival_time
                (details_of vehicle_positions feed
                 <$> departures_at next_times (_route_no self)
                       (_stop_name self))) as Hsorted.
  destruct (sorted arrival_time _) as [|first rest].
  - split; [done|]. symmetry in Hperm. apply Permutation_nil_r in Hperm.
    by rewrite Hperm.
  - rewrite <- Hperm. split.
    + rewrite fmap_cons. by left.
    + apply StronglySorted_cons in Hsorted as [Hfirst _].
      rewrite fmap_cons. constructor; [lia|].
      apply Forall_fmap. eapply Forall_impl; [exact Hfirst|]. by intros x.
Qed.

Lemma attributes_due_next_hits LAT LONG info self :
  LAT ∉ fixed_keys -> LONG ∉ fixed_keys ->
  extra_state_attributes LAT LONG info self !! ATTR_DUE_IN
  = Some (Entity.state info self) /\
  extra_state_attributes LAT LONG info self !! ATTR_HITS
  = Some (AttrText (pretty (length (_get_next_buses info self)))) /\
  extra_state_attributes LAT LONG info self !! ATTR_NEXT_ARRIVAL
  = Some (match _get_next_buses info self with
          | _ :: second :: _ => AttrInt (arrival_time second)
          | _ => AttrText "-"
          end).
Proof.
  intros Hlat Hlong. unfold fixed_keys in *.
  rewrite !not_elem_of_cons in Hlat, Hlong.
  destruct Hlat as (?&?&?&?&?&?&_). destruct Hlong as (?&?&?&?&?&?&_).
  unfold extra_state_attributes. cbv zeta.
  destruct (_get_next_buses info self) as [|first [|second rest]];
    [|destruct (position first)..];
    timeout 100 (repeat split; by simplify_map_eq).
Qed.

(** X18. When the two coordinate keys differ from each other and from
    the six fixed keys, the attributes are: the state, the stop name,
    the route, the number of arrivals as a text, the departure text of
    the first arrival or a dash, the minutes of the second arrival or a
    dash, and the coordinates of the first arrival, present exactly when
    it holds a position. *)
Theorem extra_state_attributes_lookup LAT LONG info self :
  LAT ∉ fixed_keys -> LONG ∉ fixed_keys -> LAT <> LONG ->
  let attrs := extra_state_attributes LAT LONG info self in
  let next_buses := _get_next_buses info self in
  attrs !! ATTR_DUE_IN = Some (Entity.state info self) /\
  attrs !! ATTR_STOP_NAME = Some (AttrText (_stop_name self)) /\
  attrs !! ATTR_ROUTE = Some (AttrText (_route_no self)) /\
  attrs !! ATTR_HITS = Some (AttrText (pretty (length next_buses))) /\
  attrs !! ATTR_DEP_TIME
  = Some (AttrText (match next_buses with
                    | first :: _ => dep_time first
                    | [] => "-"
                    end)) /\
  attrs !! ATTR_NEXT_ARRIVAL
  = Some (match next_buses with
          | _ :: second :: _ => AttrInt (arrival_time second)
          | _ => AttrText "-"
          end) /\
  attrs !! LAT
  = match next_buses with
    | first :: _ => match position first with
                    | PyPosition p => Some (AttrCoordinate (latitude p))
                    | _ => None
                    end
    | [] => None
    end /\
  attrs !! LONG
  = match next_buses with
    | first :: _ => match position first with
                    | PyPosition p => Some (AttrCoordinate (longitude p))
                    | _ => None
                    end
    | [] => None
    end.
Proof.
  intros Hlat Hlong Hne. unfold fixed_keys in *.
  rewrite !not_elem_of_cons in Hlat, Hlong.
  destruct Hlat as (?&?&?&?&?&?&_). destruct Hlong as (?&?&?&?&?&?&_).
  unfold extra_state_attributes. cbv zeta.
  destruct (_get_next_buses info self) as [|first [|second rest]];
    [|destruct (position first)..];
    timeout 100 (repeat split; by simplify_map_eq).
Qed.

(** X19. After a merge, the attribute of the number of arrivals is the
    number of departures of the sensor's route at its stop, and the
    minutes of the next arrival, when there is one, are not less than
    the state. *)
Theorem attributes_after_merge LAT LONG vehicle_positions feed next_times self :
  LAT ∉ fixed_keys -> LONG ∉ fixed_keys ->
  let attrs := extra_state_attributes LAT LONG
                 (route_statuses vehicle_positions feed next_times) self in
  attrs !! ATTR_HITS
  = Some (AttrText (pretty (length (departures_at next_times
                                      (_route_no self) (_stop_name self))))) /\
  forall m1 m2,
    attrs !! ATTR_DUE_IN = Some (AttrInt m1) ->
    attrs !! ATTR_NEXT_ARRIVAL = Some (AttrInt m2) ->
    m1 <= m2.
Proof.
  intros Hlat Hlong attrs. subst attrs.
  destruct (attributes_due_next_hits LAT LONG
              (route_statuses vehicle_positions feed next_times) self
              Hlat Hlong) as (-> & -> & ->).
  unfold Entity.state. rewrite get_next_buses_route_statuses.
  pose proof (sorted_perm arrival_time
                (details_of vehicle_positions feed
                 <$> departures_at next_times (_route_no self)
                       (_stop_name self))) as Hperm.
  pose proof (sorted_sorted arrival_time
                (details_of vehicle_positions feed
                 <$> departures_at next_times (_route_no self)
                       (_stop_name self))) as Hsorted.
  split.
  - by rewrite Hperm, length_fmap.
  - destruct (sorted arrival_time _) as [|first [|second rest]]; [done..|].
    intros m1 m2 [= <-] [= <-].
    apply StronglySorted_cons in Hsorted as [Hfirst _].
    by apply Forall_cons in Hfirst as [Hsecond _].
Qed.

(** The sensor of route 145 at Main St, with the keys that
    [homeassistant.const] gives to the coordinates. *)
Definition main_st_sensor : PublicTransportSensor :=
  {| _stop_name := "Main St"; _route_no := "145" |}.

Lemma coordinate_key_fresh (key : string) :
  key = "latitude"%string \/ key = "longitude"%string -> key ∉ fixed_keys.
Proof.
  unfold fixed_keys. rewrite !not_elem_of_cons.
  intros [-> | ->]; repeat split; first [discriminate | apply not_elem_of_nil].
Qed.

Lemma extra_state_attributes_lookup_witness :
  let attrs :=
    extra_state_attributes "latitude" "longitude" main_st_info main_st_sensor in
  let next_buses := _get_next_buses main_st_info main_st_sensor in
  attrs !! ATTR_DUE_IN = Some (Entity.state main_st_info main_st_sensor) /\
  attrs !! ATTR_STOP_NAME = Some (AttrText (_stop_name main_st_sensor)) /\
  attrs !! ATTR_ROUTE = Some (AttrText (_route_no main_st_sensor)) /\
  attrs !! ATTR_HITS = Some (AttrText (pretty (length next_buses))) /\
  attrs !! ATTR_DEP_TIME
  = Some (AttrText (match next_buses with
                    | first :: _ => dep_time first
                    | [] => "-"
                    end)) /\
  attrs !! ATTR_NEXT_ARRIVAL
  = Some (match next_buses with
          | _ :: second :: _ => AttrInt (arrival_time second)
          | _ => AttrText "-"
          end) /\
  attrs !! "latitude"%string
  = match next_buses with
    | first :: _ => match position first with
                    | PyPosition p => Some (AttrCoordinate (latitude p))
                    | _ => None
                    end
    | [] => None
    end /\
  attrs !! "longitude"%string
  = match next_buses with
    | first :: _ => match position first with
                    | PyPosition p => Some (AttrCoordinate (longitude p))
                    | _ => None
                    end
    | [] => None
    end.
Proof.
  apply (extra_state_attributes_lookup "latitude" "longitude"
           main_st_info main_st_sensor).
  - apply coordinate_key_fresh. by left.
  - apply coordinate_key_fresh. by right.
  - discriminate.
Defined.

Lemma attributes_after_merge_witness :
  let attrs := extra_state_attributes "latitude" "longitude"
                 (route_statuses ∅ two_minutes_late [d1; d2; d3])
                 main_st_sensor in
  attrs !! ATTR_HITS
  = Some (AttrText (pretty (length (departures_at [d1; d2; d3]
                                      (_route_no main_st_sensor)
                                      (_stop_name main_st_sensor))))) /\
  forall m1 m2,
    attrs !! ATTR_DUE_IN = Some (AttrInt m1) ->
    attrs !! ATTR_NEXT_ARRIVAL = Some (AttrInt m2) ->
    m1 <= m2.
Proof.
  apply (attributes_after_merge "latitude" "longitude" ∅ two_minutes_late
           [d1; d2; d3] main_st_sensor).
  - apply coordinate_key_fresh. by left.
  - apply coordinate_key_fresh. by right.
Defined.

Example main_st_attributes :
  extra_state_attributes "latitude" "longitude"
    (route_statuses ∅ two_minutes_late [d1; d2; d3]) main_st_sensor
  !! ATTR_HITS = Some (AttrText "3") /\
  Entity.state (route_statuses ∅ two_minutes_late [d1; d2; d3]) main_st_sensor
  = AttrInt 12.
Proof. vm_compute. split; reflexivity. Qed.

End EntityFacts.
